(** * run_local_blast_skeleton.py: a shallow embedding and its properties

    The script shells out to (PSI-)BLAST once per UniProt identifier,
    parses the tabular answer into a dictionary keyed by (query, subject),
    writes an all-against-all report and plots the E-value distribution.

    The embedding follows the script function by function.  The script is
    Python 2 (it splits the bytes read from the pipe with a [str]
    separator and hands the result of [map] to [numpy.mean]), so strings
    are byte strings ([string] of [ascii]) and [str] of a float is the
    twelve significant digit form of Python 2. *)

From Stdlib Require Import ZArith List String Ascii Bool Lia.
From Stdlib Require Import Floats.SpecFloat.
From Stdlib Require Import Sorting.Permutation.
From stdpp Require Import gmap strings list fin_maps.

Local Open Scope string_scope.
Local Open Scope Z_scope.
Local Open Scope list_scope.

(** ** Python exceptions and results *)

Inductive exn := IndexError | ValueError | TypeError | IOError.

Inductive result (A : Type) :=
| Ok (a : A)
| Raise (e : exn).
Arguments Ok {A} a.
Arguments Raise {A} e.

(** ** The string built-ins the script uses *)

Module PyStr.

(** [string.whitespace] of a Python 2 byte string: tab, newline, vertical
    tab, form feed, carriage return and space. *)
Definition isspace (c : ascii) : bool :=
  let n := Z.of_N (N_of_ascii c) in
  ((9 <=? n) && (n <=? 13)) || (n =? 32).

(** [s.split(sep)] for a one-character separator: every occurrence of
    [sep] cuts, empty pieces are kept, the result is never empty. *)
Fixpoint split_char (sep : ascii) (s : string) : list string :=
  match s with
  | EmptyString => [EmptyString]
  | String c s' =>
      if Ascii.eqb c sep then EmptyString :: split_char sep s'
      else match split_char sep s' with
           | [] => [String c EmptyString]
           | w :: ws => String c w :: ws
           end
  end.

(** [s.split()]: the maximal runs of non-whitespace characters.  The
    helper returns the field that starts at the head of [s], when the
    head is not whitespace, and the fields after it. *)
Fixpoint split_ws_go (s : string) : option string * list string :=
  match s with
  | EmptyString => (None, [])
  | String c s' =>
      let '(w, ws) := split_ws_go s' in
      if isspace c
      then (None, match w with Some x => x :: ws | None => ws end)
      else (Some (String c (default EmptyString w)), ws)
  end.

Definition split_ws (s : string) : list string :=
  let '(w, ws) := split_ws_go s in
  match w with Some x => x :: ws | None => ws end.

(** [s.endswith(suffix)] *)
Definition endswith (s suffix : string) : bool :=
  let n := String.length s in
  let m := String.length suffix in
  (m <=? n)%nat && String.eqb (substring (n - m) m s) suffix.

(** [s[0:-1]] *)
Definition drop_last (s : string) : string :=
  substring 0 (String.length s - 1) s.

(** [s.lstrip()] and [s.strip()] *)
Fixpoint lstrip (s : string) : string :=
  match s with
  | String c s' => if isspace c then lstrip s' else s
  | EmptyString => EmptyString
  end.

Fixpoint rstrip (s : string) : string :=
  match s with
  | EmptyString => EmptyString
  | String c s' =>
      match rstrip s' with
      | EmptyString => if isspace c then EmptyString else String c EmptyString
      | r => String c r
      end
  end.

Definition strip (s : string) : string := rstrip (lstrip s).

(** [sep.join(l)] *)
Fixpoint join (sep : string) (l : list string) : string :=
  match l with
  | [] => EmptyString
  | [x] => x
  | x :: l' => x +:+ sep +:+ join sep l'
  end.

(** ASCII lower case, for the case-insensitive float literals. *)
Definition lower (c : ascii) : ascii :=
  let n := N_of_ascii c in
  if ((65 <=? n) && (n <=? 90))%N then ascii_of_N (n + 32) else c.

Fixpoint lowercase (s : string) : string :=
  match s with
  | EmptyString => EmptyString
  | String c s' => String (lower c) (lowercase s')
  end.

(** The lines a file object yields when it is iterated: each keeps its
    terminating newline, the last one may lack it. *)
Fixpoint readlines (s : string) : list string :=
  match s with
  | EmptyString => []
  | String c s' =>
      if Ascii.eqb c "010"%char then String c EmptyString :: readlines s'
      else match readlines s' with
           | [] => [String c EmptyString]
           | l :: ls => String c l :: ls
           end
  end.

End PyStr.

(** ** Python floats

    A Python float is an IEEE 754 binary64 number; [spec_float] with
    precision 53 and maximal exponent 1024 is its value. *)

Module PyFloat.

Definition prec : Z := 53.
Definition emax : Z := 1024.

Definition float := spec_float.

Definition zero : float := S754_zero false.

(** The float of an integer, rounded to nearest even. *)
Definition of_Z (n : Z) : float := binary_normalize prec emax n 0 false.

Definition lt (x y : float) : bool := SFltb x y.
Definition add (x y : float) : float := SFadd prec emax x y.
Definition div (x y : float) : float := SFdiv prec emax x y.

(** [x != 0], the test behind [numpy.nonzero]: a NaN is non-zero, both
    zeros are zero. *)
Definition nonzero (x : float) : bool := negb (SFeqb x zero).

Definition is_nan (x : float) : bool :=
  match x with S754_nan => true | _ => false end.

(** *** [float(s)]

    The literal is stripped of whitespace; after an optional sign come
    [inf], [infinity] or [nan] in any case, or decimal digits with an
    optional point and an optional exponent.  Anything else is a
    [ValueError] ([None]).  The value is the literal's, rounded once to
    nearest even. *)

Definition digit_of (c : ascii) : option Z :=
  let n := Z.of_N (N_of_ascii c) in
  if (48 <=? n) && (n <=? 57) then Some (n - 48) else None.

(** Reads the longest run of digits: the number read, how many digits,
    and the rest of the text. *)
Fixpoint read_digits (acc cnt : Z) (s : string) : Z * Z * string :=
  match s with
  | EmptyString => (acc, cnt, s)
  | String c s' =>
      match digit_of c with
      | Some d => read_digits (10 * acc + d) (cnt + 1) s'
      | None => (acc, cnt, s)
      end
  end.

Definition read_sign (s : string) : bool * string :=
  match s with
  | String "-" s' => (true, s')
  | String "+" s' => (false, s')
  | _ => (false, s)
  end.

(** [m * 10 ^ e], rounded to the nearest float. *)
Definition of_decimal (neg : bool) (m e : Z) : float :=
  if m =? 0 then S754_zero neg
  else if 0 <=? e
       then binary_normalize prec emax ((if neg then - m else m) * 10 ^ e) 0 false
       else SFdiv prec emax (S754_finite neg (Z.to_pos m) 0)
                            (S754_finite false (Z.to_pos (10 ^ (- e))) 0).

Definition read_exponent (s : string) : option Z :=
  match s with
  | EmptyString => Some 0
  | String c s' =>
      if Ascii.eqb (PyStr.lower c) "e" then
        let '(neg, s1) := read_sign s' in
        let '(n, cnt, rest) := read_digits 0 0 s1 in
        match rest with
        | EmptyString => if 0 <? cnt then Some (if neg then - n else n) else None
        | _ => None
        end
      else None
  end.

Definition read_decimal (neg : bool) (s : string) : option float :=
  let '(ip, n1, s1) := read_digits 0 0 s in
  let '(m, n2, s2) :=
    match s1 with
    | String "." s1' => read_digits ip 0 s1'
    | _ => (ip, 0, s1)
    end in
  if 0 <? n1 + n2 then
    match read_exponent s2 with
    | Some e => Some (of_decimal neg m (e - n2))
    | None => None
    end
  else None.

Definition float_of_string (s : string) : option float :=
  let '(neg, body) := read_sign (PyStr.strip s) in
  let low := PyStr.lowercase body in
  if String.eqb low "inf" || String.eqb low "infinity" then Some (S754_infinity neg)
  else if String.eqb low "nan" then Some S754_nan
  else read_decimal neg body.

(** *** [str(x)]

    Python 2 prints a float with twelve significant digits, rounded to
    nearest even from the exact binary value, drops the trailing zeros,
    switches to the exponent form when the decimal point would fall
    more than three zeros to the left of the digits or more than eleven
    places to the right of the first, and appends [.0] to a result that
    would read as an integer. *)

Definition str_precision : Z := 12.

Definition digit_char (d : Z) : ascii := ascii_of_N (Z.to_N (48 + d)).

(** The decimal digits of [n], most significant first, [k] of them. *)
Fixpoint digits_of (k : nat) (n : Z) (acc : string) : string :=
  match k with
  | O => acc
  | S k' => digits_of k' (n / 10) (String (digit_char (n mod 10)) acc)
  end.

(** How many decimal digits [n >= 1] has; [fuel] bounds the search. *)
Fixpoint ndigits10 (fuel : nat) (n : Z) : Z :=
  match fuel with
  | O => 1
  | S f => if n <? 10 then 1 else 1 + ndigits10 f (n / 10)
  end.

(** For [0 < num < den]: the least [k >= 1] with [num * 10^k >= den]. *)
Fixpoint lead_shift (fuel : nat) (num den : Z) : Z :=
  match fuel with
  | O => 1
  | S f => if den <=? 10 * num then 1 else 1 + lead_shift f (10 * num) den
  end.

(** The position of the decimal point: [num / den] lies in
    [[10^(decpt-1), 10^decpt)]. *)
Definition decpt_of (num den : Z) : Z :=
  if den <=? num
  then ndigits10 (S (Z.to_nat (Z.log2 num))) (num / den)
  else 1 - lead_shift (S (Z.to_nat (Z.log2 den))) num den.

Definition round_half_even (n d : Z) : Z :=
  let q := n / d in
  let r := n mod d in
  match 2 * r ?= d with
  | Lt => q
  | Gt => q + 1
  | Eq => if Z.even q then q else q + 1
  end.

(** The significant digits of [num / den], without trailing zeros, and
    the position of the decimal point before the first of them. *)
Definition significant (num den : Z) : string * Z :=
  let p := str_precision in
  let dp := decpt_of num den in
  let k := p - dp in
  let n := if 0 <=? k then round_half_even (num * 10 ^ k) den
           else round_half_even num (den * 10 ^ (- k)) in
  let '(n, dp) := if 10 ^ p <=? n then (n / 10, dp + 1) else (n, dp) in
  let fix strip_zeros (fuel : nat) (n : Z) (len : nat) : Z * nat :=
    match fuel with
    | O => (n, len)
    | S f => if (n mod 10 =? 0) && (1 <? Z.of_nat len)
             then strip_zeros f (n / 10) (Nat.pred len) else (n, len)
    end in
  let '(n, len) := strip_zeros (Z.to_nat p) n (Z.to_nat p) in
  (digits_of len n EmptyString, dp).

Fixpoint zeros (n : nat) : string :=
  match n with O => EmptyString | S n' => String "0" (zeros n') end.

(** The exponent of the exponent form: a sign and at least two digits. *)
Definition str_exponent (e : Z) : string :=
  let a := Z.abs e in
  let ds := digits_of (Z.to_nat (ndigits10 (S (Z.to_nat (Z.log2 (a + 1)))) a)) a EmptyString in
  (if e <? 0 then "-" else "+") +:+ (if a <? 10 then "0" +:+ ds else ds).

Definition str_finite (num den : Z) : string :=
  let '(ds, dp) := significant num den in
  let nd := Z.of_nat (String.length ds) in
  if (dp <=? -4) || (str_precision - 1 <? dp) then
    let frac := substring 1 (String.length ds - 1) ds in
    substring 0 1 ds +:+
    (match frac with EmptyString => EmptyString | _ => "." +:+ frac end) +:+
    "e" +:+ str_exponent (dp - 1)
  else if dp <=? 0 then "0." +:+ zeros (Z.to_nat (- dp)) +:+ ds
  else if dp <? nd then
    substring 0 (Z.to_nat dp) ds +:+ "." +:+
    substring (Z.to_nat dp) (String.length ds - Z.to_nat dp) ds
  else ds +:+ zeros (Z.to_nat (dp - nd)) +:+ ".0".

Definition str (x : float) : string :=
  match x with
  | S754_nan => "nan"
  | S754_infinity s => if s then "-inf" else "inf"
  | S754_zero s => if s then "-0.0" else "0.0"
  | S754_finite s m e =>
      (if s then "-" else EmptyString) +:+
      (if 0 <=? e then str_finite (Z.pos m * 2 ^ e) 1
       else str_finite (Z.pos m) (2 ^ (- e)))
  end.

End PyFloat.

(** ** The script's state and effects *)

Abbreviation float := PyFloat.float.

(** [blast_dict]: keys are (query, subject) pairs, values are E-values. *)
Abbreviation dict := (gmap (string * string) float).

(** The values a caller can hand over for [evalue]: [argparse] delivers
    the integer default or the text of the [-eval] flag. *)
Inductive pyval :=
| VStr (s : string)
| VInt (n : Z)
| VFloat (x : float)
| VBool (b : bool)
| VNone.

(** What the script asks [pylab] to draw on the current figure. *)
Inductive draw :=
| Title (s : string)
| Hist (data : list float)
| Xlabel (s : string)
| Ylabel (s : string).

Definition nl : string := String "010"%char EmptyString.
Definition tab : string := String "009"%char EmptyString.
Definition dquote : string := String "034"%char EmptyString.

#[global] Instance result_ret : MRet result := @Ok.
#[global] Instance result_bind : MBind result := fun A B k r =>
  match r with
  | Ok a => k a
  | Raise e => Raise e
  end.

(** [l[i]] for [i >= 0] *)
Definition index {A : Type} (l : list A) (i : nat) : result A :=
  match l !! i with
  | Some x => Ok x
  | None => Raise IndexError
  end.

(** [str + v]: only a string can be appended to a string. *)
Definition str_add (s : string) (v : pyval) : result string :=
  match v with
  | VStr t => Ok (s +:+ t)
  | _ => Raise TypeError
  end.

Section Script.

(** Everything outside the interpreter that a shell command can see and
    change.  [shell cmd w] is what the command started in world [w]
    writes to its standard output and error until it closes them, and
    the world it leaves. *)
Context {World : Type}.
Variable shell : string -> World -> string * World.

(** [math.log10]: [None] is the [ValueError] of a domain error. *)
Variable log10 : float -> option float.

(** [numpy.mean] *)
Variable mean : list float -> float.

(** Whether [pylab.hist] refuses the data with a [ValueError], as the
    library under it does for data that hold an infinity or a NaN. *)
Variable hist_rejects : list float -> bool.

(** The file [pylab.savefig] writes for a name: the name itself when
    its extension is a format the library writes, as [.png]; the name
    with the default extension when it has none; [None] for an
    extension the library does not know, where it raises a
    [ValueError]. *)
Variable image_file : string -> option string.

Record state := State {
  world : World;
  (** the commands given to [subprocess.Popen], oldest first *)
  popen_log : list string;
  (** the lines printed *)
  stdout : list string;
  (** the text files the script reads and writes, by name; the shell
      commands are taken not to touch them *)
  files : gmap string string;
  (** the current [pylab] figure *)
  figure : list draw;
  (** what each image written by [pylab.savefig] shows, by name; a name
      is that of a text file or of an image, whichever was written
      last *)
  images : gmap string (list draw);
  (** the names that cannot be opened for writing: in a directory that
      does not exist, or without the permission; the shell commands are
      taken not to change them *)
  locked : gset string
}.

(** A computation changes the state and returns or raises. *)
Definition M (A : Type) : Type := state -> result A * state.

#[global] Instance M_ret : MRet M := fun A a s => (Ok a, s).
#[global] Instance M_bind : MBind M := fun A B k m s =>
  match m s with
  | (Ok a, s') => k a s'
  | (Raise e, s') => (Raise e, s')
  end.

Definition raise {A : Type} (e : exn) : M A := fun s => (Raise e, s).

Definition lift {A : Type} (r : result A) : M A := fun s => (r, s).

(** [for x in l: acc = body(acc, x)] *)
Fixpoint for_fold {A B : Type} (body : B -> A -> M B) (l : list A) (acc : B) : M B :=
  match l with
  | [] => mret acc
  | x :: l' => acc' ← body acc x; for_fold body l' acc'
  end.

(** [for x in l: body(x)] *)
Definition for_each {A : Type} (body : A -> M unit) (l : list A) : M unit :=
  for_fold (fun _ x => body x) l tt.

(** [map(f, l)] of Python 2, which builds the whole list at once. *)
Fixpoint map_list {A B : Type} (f : A -> M B) (l : list A) : M (list B) :=
  match l with
  | [] => mret []
  | x :: l' => y ← f x; ys ← map_list f l'; mret (y :: ys)
  end.

Definition print (line : string) : M unit := fun s =>
  (Ok tt, State (world s) (popen_log s) (stdout s ++ [line])%list (files s)
                (figure s) (images s) (locked s)).

(** [subprocess.Popen(cmd, shell=True, ...)] followed by
    [p.stdout.read()], which returns when the command has closed its
    output. *)
Definition popen_read (cmd : string) : M string := fun s =>
  let '(out, w) := shell cmd (world s) in
  (Ok out, State w (popen_log s ++ [cmd])%list (stdout s) (files s)
                 (figure s) (images s) (locked s)).

(** [open(name)] and reading all of it *)
Definition open_read (name : string) : M string := fun s =>
  match files s !! name with
  | Some text => (Ok text, s)
  | None => (Raise IOError, s)
  end.

(** Whether [name] can be opened for writing: the empty name never
    can. *)
Definition can_open (name : string) (s : state) : bool :=
  negb (String.eqb name EmptyString) && bool_decide (name ∉ locked s).

(** [open(name, "w")] raises [IOError] for a name that cannot be opened
    and else leaves an empty text file under the name, in the place of
    whatever the name held. *)
Definition open_write (name : string) : M unit := fun s =>
  if can_open name s then
    (Ok tt, State (world s) (popen_log s) (stdout s)
                  (<[name := EmptyString]> (files s)) (figure s)
                  (delete name (images s)) (locked s))
  else (Raise IOError, s).

(** [f.write(text)] on a file opened for writing *)
Definition write (name text : string) : M unit := fun s =>
  (Ok tt, State (world s) (popen_log s) (stdout s)
                (<[name := default EmptyString (files s !! name) +:+ text]> (files s))
                (figure s) (images s) (locked s)).

(** [pylab.title], [pylab.xlabel] and [pylab.ylabel] of a string add to
    the current figure. *)
Definition pylab (d : draw) : M unit := fun s =>
  (Ok tt, State (world s) (popen_log s) (stdout s) (files s)
                (figure s ++ [d])%list (images s) (locked s)).

(** [pylab.hist(data)] raises [ValueError] on data it refuses and
    leaves the figure as it found it; else it adds the histogram. *)
Definition hist (data : list float) : M unit := fun s =>
  if hist_rejects data then (Raise ValueError, s) else pylab (Hist data) s.

(** [pylab.savefig(png_filename)] raises [ValueError] for a name whose
    format it does not know and [IOError] when the file cannot be
    opened; else it writes the current figure to the file, in the place
    of whatever the name held. *)
Definition savefig (png_filename : string) : M unit := fun s =>
  match image_file png_filename with
  | None => (Raise ValueError, s)
  | Some name =>
      if can_open name s then
        (Ok tt, State (world s) (popen_log s) (stdout s) (delete name (files s))
                      (figure s) (<[name := figure s]> (images s)) (locked s))
      else (Raise IOError, s)
  end.

(** ** [blast] *)

Definition blast_default_query_folder : string := "./queries/".
Definition blast_default_evalue : pyval := VInt 10.

Definition blast (db query query_folder blast_path : string)
    (psiblast : bool) (evalue : pyval) : M string :=
  let query := if PyStr.endswith query nl then PyStr.drop_last query else query in
  let query := if PyStr.endswith query " " then PyStr.drop_last query else query in
  cmd ← (if negb psiblast then
           lift (str_add ("blastp -query=" +:+ query_folder +:+ query +:+ " -db=" +:+ db
                          +:+ " -outfmt=" +:+ dquote +:+ "6 qacc sacc evalue" +:+ dquote
                          +:+ " -evalue=") evalue)
         else
           c ← lift (str_add ("psiblast -query=" +:+ query_folder +:+ query +:+ " -db=" +:+ db
                              +:+ " -num_iterations=3"
                              +:+ " -outfmt=" +:+ dquote +:+ "6 qacc sacc evalue" +:+ dquote
                              +:+ " -evalue=") evalue);
           mret (c +:+ " -comp_based_stats=0"));
  blast_result ← popen_read cmd;
  mret blast_result.

(** ** [parse_blast_result] *)

(** Lines 72 to 75: the fields of a line, each index raising
    [IndexError] when it is out of range. *)
Definition extract_fields (line : string) : result (string * string * string) :=
  let splitted_line := PyStr.split_ws line in
  f0 ← index splitted_line 0;
  query ← index (PyStr.split_char "|" f0) 1;
  f1 ← index splitted_line 1;
  subject ← index (PyStr.split_char "|" f1) 1;
  e_value ← index splitted_line 2;
  mret (query, subject, e_value).

(** [line and line[0] != "#" and line[0] != "["] *)
Definition is_data_line (line : string) : bool :=
  match line with
  | EmptyString => false
  | String c _ => negb (Ascii.eqb c "#") && negb (Ascii.eqb c "[")
  end.

Definition warning (line : string) : string :=
  tab +:+ "Could not parse (psi-)blast response line:" +:+ nl +:+ tab +:+ line.

(** The body of the loop.  [blast_dict] is the dictionary as the body
    finds it, the result the dictionary as it leaves it. *)
Definition parse_line (blast_dict : dict) (line : string) : M dict :=
  if is_data_line line then
    match extract_fields line with
    | Ok (query, subject, e_value) =>
        let blast_key := (query, subject) in
        match PyFloat.float_of_string e_value with
        | Some x => mret (<[blast_key := x]> blast_dict)
        | None => raise ValueError
        end
    | Raise IndexError =>
        (if negb (PyStr.endswith line "CONVERGED!") then print (warning line)
         else mret tt);;
        mret blast_dict
    | Raise e => raise e
    end
  else mret blast_dict.

Definition parse_blast_result (blast_result : string) (blast_dict : dict) : M dict :=
  for_fold parse_line (PyStr.split_char "010" blast_result) blast_dict.

(** ** [write_output] *)

(** [len(pair) == len(set(pair))] for a pair *)
Definition unique_elements (pair : string * string) : bool :=
  (2 =? size (list_to_set [pair.1; pair.2] : gset string))%nat.

Definition write_output (uniprot_ids : list string) (output_filename : string)
    (blast_dict : dict) : M unit :=
  open_write output_filename;;
  let combinations_ids := list_prod uniprot_ids uniprot_ids in
  for_each (fun pair =>
    if unique_elements pair then
      let pair_str := PyStr.join tab [pair.1; pair.2] in
      match blast_dict !! pair with
      | Some x => write output_filename (pair_str +:+ tab +:+ PyFloat.str x +:+ nl)
      | None => write output_filename (pair_str +:+ tab +:+ "NA" +:+ nl)
      end
    else mret tt) combinations_ids.

(** ** [plot_evalue_distribution] *)

(** [sorted(l)]: a stable sort that compares with [<] only.  Every
    stable sort gives this list when no element is a NaN; with a NaN
    the order Python leaves depends on how it merges. *)
Fixpoint insert_sorted (x : float) (l : list float) : list float :=
  match l with
  | [] => [x]
  | y :: l' => if PyFloat.lt y x then y :: insert_sorted x l' else x :: l
  end.

Definition sorted (l : list float) : list float := foldr insert_sorted [] l.

(** [numpy.nonzero(l)[0]]: the indices of the non-zero entries, counted
    from [i]. *)
Fixpoint nonzero_from (i : nat) (l : list float) : list nat :=
  match l with
  | [] => []
  | x :: l' =>
      if PyFloat.nonzero x then i :: nonzero_from (S i) l' else nonzero_from (S i) l'
  end.

(** [blast_dict.values()] *)
Definition values (blast_dict : dict) : list float := (map_to_list blast_dict).*2.

Definition plot_default_evalue : float := PyFloat.of_Z 100000.

(** Lines 141 to 144 *)
Definition count_lower (sorted_e_val : list float) (evalue : float) : Z :=
  fold_left (fun lower_than_threshold e_value =>
               if PyFloat.lt e_value evalue then lower_than_threshold + 1
               else lower_than_threshold) sorted_e_val 0.

(** The function returns nothing; the embedding returns the last value
    of its local [lower_than_threshold].  The source breaks the name
    [math.log10] after [log1]; it is read as the one name it spells. *)
Definition plot_evalue_distribution (blast_dict : dict) (png_filename : string)
    (evalue : float) : M Z :=
  let sorted_e_val := sorted (values blast_dict) in
  let nonzero_indices := nonzero_from 0 sorted_e_val in
  i ← lift (index nonzero_indices 0);
  first_nonzero ← lift (index sorted_e_val i);
  let pseudo_count := PyFloat.div first_nonzero (PyFloat.of_Z 1000) in
  minus_log_evalues ←
    map_list (fun x => match log10 (PyFloat.add x pseudo_count) with
                       | Some y => mret y
                       | None => raise ValueError
                       end) (values blast_dict);
  pylab (Title ("Average log(e-value):" +:+ PyFloat.str (mean minus_log_evalues)));;
  hist minus_log_evalues;;
  pylab (Xlabel "log(e-value)");;
  pylab (Ylabel "Frequency");;
  savefig png_filename;;
  let lower_than_threshold := count_lower sorted_e_val evalue in
  mret lower_than_threshold.

(** ** [clean_uniprot] and [main] *)

Definition clean_uniprot (uniprot : string) : string :=
  let uniprot := if PyStr.endswith uniprot nl then PyStr.drop_last uniprot else uniprot in
  let uniprot := if PyStr.endswith uniprot " " then PyStr.drop_last uniprot else uniprot in
  uniprot.

Definition main_default_evalue : pyval := VInt 10.

(** The body of the loop of [main] over the lines of the identifier
    file; the accumulator holds [uniprot_ids] and [blast_dict]. *)
Definition main_step (query_folder db : string) (psiblast : bool)
    (output_filename : string) (evalue : pyval)
    (acc : list string * dict) (line : string) : M (list string * dict) :=
  let '(uniprot_ids, blast_dict) := acc in
  let query := PyStr.strip line in
  let line := clean_uniprot line in
  blast_result ← blast db (line +:+ ".fasta") query_folder output_filename psiblast evalue;
  let uniprot_ids := (uniprot_ids ++ [line])%list in
  blast_dict ← parse_blast_result blast_result blast_dict;
  mret (uniprot_ids, blast_dict).

Definition main_loop (query_folder db : string) (psiblast : bool)
    (output_filename : string) (evalue : pyval) (lines : list string)
    : M (list string * dict) :=
  for_fold (main_step query_folder db psiblast output_filename evalue)
           lines ([], ∅).

Definition main (uniprot_id_list query_folder db : string) (psiblast : bool)
    (output_filename output_png : string) (evalue : pyval) : M unit :=
  uniprot_ids_file ← open_read uniprot_id_list;
  acc ← main_loop query_folder db psiblast output_filename evalue
                  (PyStr.readlines uniprot_ids_file);
  let '(uniprot_ids, blast_dict) := acc in
  write_output uniprot_ids output_filename blast_dict;;
  plot_evalue_distribution blast_dict output_png plot_default_evalue;;
  mret tt.

End Script.

(** ** Vocabulary of the statements *)

Section Vocabulary.

Context {World : Type}.

(** The state after the warning for [line], which a line that ends
    with [CONVERGED!] does not get. *)
Definition warned (line : string) (s : @state World) : @state World :=
  if PyStr.endswith line "CONVERGED!" then s
  else State (world s) (popen_log s) (stdout s ++ [warning line])%list (files s)
             (figure s) (images s) (locked s).

(** The state once [name] holds [text], in the place of whatever it
    held. *)
Definition with_file (name text : string) (s : @state World) : @state World :=
  State (world s) (popen_log s) (stdout s) (<[name := text]> (files s))
        (figure s) (delete name (images s)) (locked s).

(** The score column of the report: the stored E-value as [str] prints
    it, or [NA]. *)
Definition score_text (blast_dict : dict) (pair : string * string) : string :=
  match blast_dict !! pair with
  | Some x => PyFloat.str x
  | None => "NA"
  end.

(** One line of the report. *)
Definition report_line (blast_dict : dict) (pair : string * string) : string :=
  pair.1 +:+ tab +:+ pair.2 +:+ tab +:+ score_text blast_dict pair +:+ nl.

Fixpoint concat_lines (l : list string) : string :=
  match l with
  | [] => EmptyString
  | x :: l' => x +:+ concat_lines l'
  end.

(** The key a line of BLAST output stores under, if it stores. *)
Definition stored_key (line : string) : option (string * string) :=
  if is_data_line line then
    match extract_fields line with
    | Ok (query, subject, _) => Some (query, subject)
    | Raise _ => None
    end
  else None.

(** No line of [out] makes [float] fail. *)
Definition floats_parse (out : string) : Prop :=
  ∀ line query subject e_value,
    line ∈ PyStr.split_char "010" out →
    is_data_line line = true →
    extract_fields line = Ok (query, subject, e_value) →
    is_Some (PyFloat.float_of_string e_value).

(** The command [main] builds for a line of the identifier file. *)
Definition blast_command (query_folder db : string) (psiblast : bool)
    (evalue : string) (line : string) : string :=
  let query := clean_uniprot line +:+ ".fasta" in
  let query := if PyStr.endswith query nl then PyStr.drop_last query else query in
  let query := if PyStr.endswith query " " then PyStr.drop_last query else query in
  if negb psiblast then
    "blastp -query=" +:+ query_folder +:+ query +:+ " -db=" +:+ db
    +:+ " -outfmt=" +:+ dquote +:+ "6 qacc sacc evalue" +:+ dquote
    +:+ " -evalue=" +:+ evalue
  else
    ("psiblast -query=" +:+ query_folder +:+ query +:+ " -db=" +:+ db
     +:+ " -num_iterations=3"
     +:+ " -outfmt=" +:+ dquote +:+ "6 qacc sacc evalue" +:+ dquote
     +:+ " -evalue=" +:+ evalue) +:+ " -comp_based_stats=0".

(** What the figure gains in [plot_evalue_distribution]. *)
Definition histogram (mean : list float -> float) (data : list float) : list draw :=
  [Title ("Average log(e-value):" +:+ PyFloat.str (mean data));
   Hist data; Xlabel "log(e-value)"; Ylabel "Frequency"].

(** The state once the figure has gained [drawn]. *)
Definition with_figure (drawn : list draw) (s : @state World) : @state World :=
  State (world s) (popen_log s) (stdout s) (files s) (figure s ++ drawn)%list
        (images s) (locked s).

(** The state once the figure has gained [drawn] and was saved as the
    image [png_filename], in the place of whatever the name held. *)
Definition with_image (png_filename : string) (drawn : list draw)
    (s : @state World) : @state World :=
  State (world s) (popen_log s) (stdout s) (delete png_filename (files s))
        (figure s ++ drawn)%list
        (<[png_filename := (figure s ++ drawn)%list]> (images s)) (locked s).

(** The state after [cmd] was started and read to its end. *)
Definition after_command (shell : string -> World -> string * World)
    (cmd : string) (s : @state World) : @state World :=
  State (shell cmd (world s)).2 (popen_log s ++ [cmd]) (stdout s) (files s)
        (figure s) (images s) (locked s).

(** A computation that starts no command: the record of commands and
    the world are as before, and so are the names that cannot be
    opened. *)
Definition keeps_log {A : Type} (m : @M World A) : Prop :=
  ∀ s, popen_log (m s).2 = popen_log s ∧ world (m s).2 = world s ∧
       locked (m s).2 = locked s.

(** The world after the commands [cmds] ran one after the other, each
    started in the world the one before it left. *)
Definition run_commands (shell : string -> World -> string * World)
    (cmds : list string) (w : World) : World :=
  foldl (fun w cmd => (shell cmd w).2) w cmds.

(** What each of the commands [cmds] writes when they run one after
    the other, each started in the world the one before it left. *)
Fixpoint outputs (shell : string -> World -> string * World)
    (cmds : list string) (w : World) : list string :=
  match cmds with
  | [] => []
  | cmd :: cmds => (shell cmd w).1 :: outputs shell cmds (shell cmd w).2
  end.

(** A line whose three fields are extracted and whose third [float]
    does not take. *)
Definition float_fails (line : string) : bool :=
  is_data_line line &&
  match extract_fields line with
  | Ok (_, _, e_value) =>
      match PyFloat.float_of_string e_value with
      | Some _ => false
      | None => true
      end
  | Raise _ => false
  end.

(** [floats_parse], decided. *)
Definition parses (out : string) : bool :=
  forallb (fun line => negb (float_fails line)) (PyStr.split_char "010" out).

(** How many of the outputs are there up to and including the first
    that does not parse: all of them when all parse. *)
Fixpoint started (outs : list string) : nat :=
  match outs with
  | [] => 0
  | out :: outs => if parses out then S (started outs) else 1
  end.

(** C1 as the specification words it: a line for every pair of the
    cross product. *)
Definition every_pair_report (uniprot_ids : list string) (blast_dict : dict) : string :=
  concat_lines (map (report_line blast_dict) (list_prod uniprot_ids uniprot_ids)).

(** The value [args.evalue] gets: the text after [-eval], or the
    default of the parser. *)
Definition args_evalue (eval_flag : option string) : pyval :=
  match eval_flag with
  | Some text => VStr text
  | None => VInt 10
  end.

End Vocabulary.

(** ** A sample run

    The examples below run the script in a world that counts the
    commands it has run, where the tool answers every command with the
    same text. *)

Module Sample.

Definition idle : @state nat := State 0%nat [] [] ∅ [] ∅ ∅.

(** A state whose identifier file [ids] lists [A] and [B]. *)
Definition with_ids : @state nat :=
  State 0%nat [] [] {[ "ids" := "A" +:+ nl +:+ "B" +:+ nl ]} [] ∅ ∅.

(** One hit, a comment, a line without fields and the closing line of
    PSI-BLAST. *)
Definition hits : string :=
  "sp|A|x sp|B|y 10" +:+ nl +:+ "# BLASTP" +:+ nl +:+ "no hits" +:+ nl
  +:+ "Search has CONVERGED!".

(** A hit whose E-value column is no number. *)
Definition bad_hits : string := "sp|A|x sp|B|y abc".

Definition shell (cmd : string) (w : nat) : string * nat := (hits, S w).
Definition bad_shell (cmd : string) (w : nat) : string * nat := (bad_hits, S w).

(** The statements hold for any [math.log10] and [numpy.mean]; the
    examples run with these. *)
Definition log10 (x : float) : option float := Some x.
Definition mean (l : list float) : float := PyFloat.zero.

(** A plotting library that refuses data with an infinity or a NaN and
    writes PNG files only, under the name it is given. *)
Definition finite (x : float) : bool :=
  match x with
  | S754_zero _ | S754_finite _ _ _ => true
  | S754_infinity _ | S754_nan => false
  end.
Definition hist_rejects (data : list float) : bool := negb (forallb finite data).
Definition image_file (name : string) : option string :=
  if PyStr.endswith name ".png" then Some name else None.

Definition ten : float := PyFloat.of_Z 10.

Definition one_hit : dict := {[ ("A", "B") := ten ]}.

End Sample.

(** ** More vocabulary *)

Section Coverage.

Context {World : Type}.

(** A line that gets the warning: a data line whose fields cannot be
    extracted and that does not end with [CONVERGED!]. *)
Definition warns (line : string) : bool :=
  is_data_line line &&
  match extract_fields line with Ok _ => false | Raise _ => true end &&
  negb (PyStr.endswith line "CONVERGED!").

(** The state after [printed] went to the standard output. *)
Definition with_stdout (printed : list string) (s : @state World) : @state World :=
  State (world s) (popen_log s) (stdout s ++ printed) (files s) (figure s) (images s)
        (locked s).

(** Whether the character [c] occurs in [s]. *)
Fixpoint contains (c : ascii) (s : string) : bool :=
  match s with
  | EmptyString => false
  | String x s' => Ascii.eqb x c || contains c s'
  end.

(** The characters of the score column: those [str] makes the text of
    a float of, and those of [NA]. *)
Definition score_char (c : ascii) : bool :=
  existsb (Ascii.eqb c) (list_ascii_of_string "0123456789.e+-infaNA").

(** Every character of [s] passes [P]. *)
Fixpoint all_chars (P : ascii -> bool) (s : string) : bool :=
  match s with
  | EmptyString => true
  | String c s' => P c && all_chars P s'
  end.

(** What a line of output that parses does to the dictionary. *)
Definition store (d : dict) (line : string) : dict :=
  if is_data_line line then
    match extract_fields line with
    | Ok (query, subject, e_value) =>
        match PyFloat.float_of_string e_value with
        | Some x => <[(query, subject) := x]> d
        | None => d
        end
    | Raise _ => d
    end
  else d.

(** The dictionary after the outputs [outs] were parsed one after the
    other, starting from [d]. *)
Definition parsed (d : dict) (outs : list string) : dict :=
  foldl (fun d out => foldl store d (PyStr.split_char "010" out)) d outs.

(** The pairs of the cross product that pass the guard of
    [write_output], in the order of the loop. *)
Definition report_pairs (uniprot_ids : list string) : list (string * string) :=
  filter (fun pair => unique_elements pair = true) (list_prod uniprot_ids uniprot_ids).

End Coverage.

(** ** Properties of the loops *)

(** Exposes the pairs that returning, raising and lifting stand for. *)
Ltac unfold_ret := unfold mret, M_ret, raise, lift in *.

Section Loops.

Context {World : Type}.
Implicit Types s : @state World.

Lemma bind_run {A B : Type} (m : M A) (k : A -> M B) s :
  (m ≫= k) s = match m s with
               | (Ok a, s') => k a s'
               | (Raise e, s') => (Raise e, s')
               end.
Proof. reflexivity. Qed.

Lemma for_fold_app {A B : Type} (body : B -> A -> M B) (l1 l2 : list A) (acc : B) s :
  for_fold body (l1 ++ l2) acc s =
  match for_fold body l1 acc s with
  | (Ok acc', s') => for_fold body l2 acc' s'
  | (Raise e, s') => (Raise e, s')
  end.
Proof.
  revert acc s. induction l1 as [|x l1 IH]; intros acc s; [reflexivity|].
  cbn [for_fold app]. rewrite !bind_run.
  destruct (body acc x s) as [[acc'|e] s']; [apply IH | reflexivity].
Qed.

Lemma for_fold_cons {A B : Type} (body : B -> A -> M B) (x : A) (l : list A) (acc : B) s :
  for_fold body (x :: l) acc s =
  match body acc x s with
  | (Ok acc', s') => for_fold body l acc' s'
  | (Raise e, s') => (Raise e, s')
  end.
Proof. reflexivity. Qed.

End Loops.

(** ** [parse_blast_result] *)

Section Parsing.

Context {World : Type}.
Implicit Types s : @state World.
Implicit Types d blast_dict : dict.

Lemma index_raises {A : Type} (l : list A) (i : nat) (e : exn) :
  index l i = Raise e -> e = IndexError.
Proof. unfold index. destruct (l !! i); congruence. Qed.

(** Extracting the fields can only fail with an [IndexError]. *)
Lemma extract_fields_raises (line : string) (e : exn) :
  extract_fields line = Raise e -> e = IndexError.
Proof.
  unfold extract_fields.
  repeat (cbn [mbind result_bind];
          match goal with
          | |- context [index ?l ?i] =>
              let E := fresh "E" in
              destruct (index l i) eqn:E;
              [ | intros [= <-]; exact (index_raises _ _ _ E) ]
          end).
  unfold mret, result_ret. discriminate.
Qed.

Lemma parse_line_skip d (line : string) s :
  is_data_line line = false -> parse_line d line s = (Ok d, s).
Proof. unfold parse_line. intros ->. reflexivity. Qed.

Lemma parse_line_store d (line query subject e_value : string) x s :
  is_data_line line = true ->
  extract_fields line = Ok (query, subject, e_value) ->
  PyFloat.float_of_string e_value = Some x ->
  parse_line d line s = (Ok (<[(query, subject) := x]> d), s).
Proof. unfold parse_line. intros -> -> ->. reflexivity. Qed.

Lemma parse_line_value_error d (line query subject e_value : string) s :
  is_data_line line = true ->
  extract_fields line = Ok (query, subject, e_value) ->
  PyFloat.float_of_string e_value = None ->
  parse_line d line s = (Raise ValueError, s).
Proof. unfold parse_line. intros -> -> ->. reflexivity. Qed.

Lemma parse_line_index_error d (line : string) (e : exn) s :
  is_data_line line = true ->
  extract_fields line = Raise e ->
  parse_line d line s = (Ok d, warned line s).
Proof.
  intros Hd He. pose proof (extract_fields_raises _ _ He) as ->.
  unfold parse_line, warned. rewrite Hd, He.
  destruct (PyStr.endswith line "CONVERGED!"); destruct s; reflexivity.
Qed.

(** The only exception that leaves the loop body is the [ValueError]
    of [float]. *)
Lemma parse_line_raises d (line : string) (e : exn) s s' :
  parse_line d line s = (Raise e, s') -> e = ValueError.
Proof.
  unfold parse_line. destruct (is_data_line line); [|discriminate].
  destruct (extract_fields line) as [[[q sj] ev]|e'] eqn:E.
  - destruct (PyFloat.float_of_string ev); [discriminate|].
    unfold raise. congruence.
  - pose proof (extract_fields_raises _ _ E) as ->.
    destruct (negb (PyStr.endswith line "CONVERGED!")); discriminate.
Qed.

(** A key stays once it is stored. *)
Lemma parse_line_keeps d d' (line : string) (k : string * string) s s' :
  parse_line d line s = (Ok d', s') -> is_Some (d !! k) -> is_Some (d' !! k).
Proof.
  unfold parse_line. destruct (is_data_line line); [|unfold_ret; congruence].
  destruct (extract_fields line) as [[[q sj] ev]|e'] eqn:E.
  - destruct (PyFloat.float_of_string ev); [|discriminate].
    intros [= <- <-] Hk. rewrite lookup_insert. case_decide; eauto.
  - pose proof (extract_fields_raises _ _ E) as ->. rewrite bind_run.
    destruct (negb (PyStr.endswith line "CONVERGED!"));
      unfold print; unfold_ret; congruence.
Qed.

Lemma parse_lines_keep (lines : list string) d d' (k : string * string) s s' :
  for_fold parse_line lines d s = (Ok d', s') -> is_Some (d !! k) -> is_Some (d' !! k).
Proof.
  revert d s. induction lines as [|l lines IH]; intros d s.
  - intros [= <- <-]. auto.
  - rewrite for_fold_cons.
    destruct (parse_line d l s) as [[d1|e] s1] eqn:E; [|discriminate].
    intros H Hk. eapply IH; [exact H|]. eapply parse_line_keeps; eauto.
Qed.

(** C2: a line that is not blank, does not start with [#] or [[], has
    three fields and a second [|]-part in each of the first two, and
    whose third field [float] accepts, makes the loop body store the
    float of the third field under (query, subject); the loop goes on
    with the lines after it from that dictionary, and the key is in
    the dictionary [parse_blast_result] returns. *)
Theorem parse_blast_result_stores (blast_result : string)
    (pre post : list string) (line f0 f1 e_value query subject : string)
    (x : float) d s :
  PyStr.split_char "010" blast_result = pre ++ line :: post ->
  is_data_line line = true ->
  PyStr.split_ws line !! 0%nat = Some f0 ->
  PyStr.split_ws line !! 1%nat = Some f1 ->
  PyStr.split_ws line !! 2%nat = Some e_value ->
  PyStr.split_char "|" f0 !! 1%nat = Some query ->
  PyStr.split_char "|" f1 !! 1%nat = Some subject ->
  PyFloat.float_of_string e_value = Some x ->
  parse_line d line s = (Ok (<[(query, subject) := x]> d), s) ∧
  (∀ d1 s1, for_fold parse_line pre d s = (Ok d1, s1) ->
     parse_blast_result blast_result d s =
     for_fold parse_line post (<[(query, subject) := x]> d1) s1) ∧
  (∀ d' s', parse_blast_result blast_result d s = (Ok d', s') ->
     is_Some (d' !! (query, subject))).
Proof.
  intros Hsplit Hdata H0 H1 H2 Hq Hs Hx.
  assert (Hext : extract_fields line = Ok (query, subject, e_value)).
  { unfold extract_fields, index. rewrite H0. cbn [mbind result_bind].
    rewrite Hq. cbn [mbind result_bind]. rewrite H1. cbn [mbind result_bind].
    rewrite Hs. cbn [mbind result_bind]. rewrite H2. reflexivity. }
  assert (Hstep : ∀ d0 s0, parse_line d0 line s0
                           = (Ok (<[(query, subject) := x]> d0), s0)).
  { intros. eapply parse_line_store; eauto. }
  split; [apply Hstep|]. unfold parse_blast_result. rewrite Hsplit. split.
  - intros d1 s1 Hpre. rewrite for_fold_app, Hpre, for_fold_cons, Hstep.
    reflexivity.
  - intros d' s'. rewrite for_fold_app.
    destruct (for_fold parse_line pre d s) as [[d1|e] s1]; [|discriminate].
    rewrite for_fold_cons, Hstep. intros H.
    eapply parse_lines_keep; [exact H|]. rewrite lookup_insert_eq. eauto.
Qed.

(** C3: when a field index of a line is out of range, the loop body
    returns normally with the dictionary it was given, having printed
    the warning unless the line ends with [CONVERGED!], and the loop
    goes on with the lines after it. *)
Theorem parse_blast_result_index_error (blast_result : string)
    (pre post : list string) (line : string) (e : exn) d s :
  PyStr.split_char "010" blast_result = pre ++ line :: post ->
  is_data_line line = true ->
  extract_fields line = Raise e ->
  e = IndexError ∧
  parse_line d line s = (Ok d, warned line s) ∧
  (∀ d1 s1, for_fold parse_line pre d s = (Ok d1, s1) ->
     parse_blast_result blast_result d s =
     for_fold parse_line post d1 (warned line s1)).
Proof.
  intros Hsplit Hdata He. split; [eapply extract_fields_raises; eauto|].
  split; [eapply parse_line_index_error; eauto|].
  intros d1 s1 Hpre. unfold parse_blast_result.
  rewrite Hsplit, for_fold_app, Hpre, for_fold_cons.
  erewrite parse_line_index_error; eauto.
Qed.

Lemma parse_lines_value_error (lines : list string)
    (line query subject e_value : string) d s :
  line ∈ lines ->
  is_data_line line = true ->
  extract_fields line = Ok (query, subject, e_value) ->
  PyFloat.float_of_string e_value = None ->
  ∃ s', for_fold parse_line lines d s = (Raise ValueError, s').
Proof.
  intros Hin Hdata Hext Hx. revert d s.
  induction lines as [|l lines IH]; intros d s; [by apply elem_of_nil in Hin|].
  rewrite for_fold_cons.
  destruct (parse_line d l s) as [[d1|e] s1] eqn:E.
  - apply elem_of_cons in Hin as [->|Hin]; [|by apply IH].
    erewrite parse_line_value_error in E; eauto. discriminate.
  - pose proof (parse_line_raises _ _ _ _ _ E) as ->. eauto.
Qed.

(** C4: a line whose three fields are extracted and whose third field
    [float] rejects makes the loop body raise [ValueError], and
    [parse_blast_result] raises [ValueError] on any output that holds
    such a line. *)
Theorem parse_blast_result_value_error (blast_result : string)
    (line query subject e_value : string) d s :
  line ∈ PyStr.split_char "010" blast_result ->
  is_data_line line = true ->
  extract_fields line = Ok (query, subject, e_value) ->
  PyFloat.float_of_string e_value = None ->
  parse_line d line s = (Raise ValueError, s) ∧
  ∃ s', parse_blast_result blast_result d s = (Raise ValueError, s').
Proof.
  intros Hin Hdata Hext Hx. split.
  - eapply parse_line_value_error; eauto.
  - eapply parse_lines_value_error; eauto.
Qed.

End Parsing.

(** ** [write_output] *)

Section Writing.

Context {World : Type}.
Implicit Types s : @state World.
Implicit Types d blast_dict : dict.

Lemma append_assoc (a b c : string) : (a +:+ b) +:+ c = a +:+ b +:+ c.
Proof.
  induction a as [|x a IH]; [reflexivity|].
  change (String x ((a +:+ b) +:+ c) = String x (a +:+ b +:+ c)).
  by rewrite IH.
Qed.

Lemma append_empty_r (a : string) : a +:+ EmptyString = a.
Proof.
  induction a as [|x a IH]; [reflexivity|].
  change (String x (a +:+ EmptyString) = String x a). by rewrite IH.
Qed.

(** The guard of the loop lets a pair through when its two identifiers
    differ. *)
Lemma unique_elements_spec (pair : string * string) :
  unique_elements pair = true ↔ pair.1 ≠ pair.2.
Proof.
  destruct pair as [a b]. unfold unique_elements. cbn [fst snd list_to_set foldr].
  rewrite (right_id_L ∅ (∪)).
  destruct (decide (a = b)) as [->|Hne].
  - rewrite (idemp_L (∪)), size_singleton. cbn. split; [discriminate | congruence].
  - rewrite size_union
      by (by apply disjoint_singleton_l, not_elem_of_singleton).
    rewrite !size_singleton. cbn. split; auto.
Qed.

Lemma with_file_lookup (name text : string) s :
  files (with_file name text s) !! name = Some text.
Proof. unfold with_file. cbn. apply lookup_insert_eq. Qed.

Lemma with_file_twice (name text text' : string) s :
  with_file name text' (with_file name text s) = with_file name text' s.
Proof. unfold with_file. cbn. by rewrite insert_insert_eq, delete_delete_eq. Qed.

(** Writing to a file that is open adds to its text. *)
Lemma write_run (name text old : string) s :
  write name text (with_file name old s) = (Ok tt, with_file name (old +:+ text) s).
Proof.
  unfold write. rewrite with_file_lookup. cbn [default].
  unfold with_file. cbn. by rewrite insert_insert_eq.
Qed.

Lemma open_write_run (name : string) s :
  can_open name s = true ->
  open_write name s = (Ok tt, with_file name EmptyString s).
Proof. intros H. unfold open_write. by rewrite H. Qed.

Lemma open_write_raises (name : string) s :
  can_open name s = false -> open_write name s = (Raise IOError, s).
Proof. intros H. unfold open_write. by rewrite H. Qed.

(** The text of either branch of the loop body is the report line. *)
Lemma write_output_body d (output_filename old : string) (pair : string * string) s :
  match d !! pair with
  | Some x => write output_filename
                (PyStr.join tab [pair.1; pair.2] +:+ tab +:+ PyFloat.str x +:+ nl)
  | None => write output_filename
                (PyStr.join tab [pair.1; pair.2] +:+ tab +:+ "NA" +:+ nl)
  end (with_file output_filename old s)
  = (Ok tt, with_file output_filename (old +:+ report_line d pair) s).
Proof.
  unfold report_line, score_text. cbn [PyStr.join].
  destruct (d !! pair); rewrite write_run; by rewrite !append_assoc.
Qed.

Lemma write_output_loop d (output_filename old : string)
    (pairs : list (string * string)) s :
  for_each (fun pair =>
    if unique_elements pair then
      let pair_str := PyStr.join tab [pair.1; pair.2] in
      match d !! pair with
      | Some x => write output_filename (pair_str +:+ tab +:+ PyFloat.str x +:+ nl)
      | None => write output_filename (pair_str +:+ tab +:+ "NA" +:+ nl)
      end
    else mret tt) pairs (with_file output_filename old s)
  = (Ok tt, with_file output_filename
              (old +:+ concat_lines (map (report_line d) (filter (fun pair => unique_elements pair = true) pairs))) s).
Proof.
  unfold for_each. revert old.
  induction pairs as [|pair pairs IH]; intros old.
  - cbn. by rewrite append_empty_r.
  - rewrite for_fold_cons. rewrite filter_cons.
    destruct (unique_elements pair) eqn:Hu.
    + cbv zeta. rewrite (write_output_body _ _ old).
      rewrite (IH (old +:+ report_line d pair)).
      rewrite decide_True by done.
      cbn [map concat_lines]. by rewrite append_assoc.
    + unfold_ret. rewrite (IH old).
      rewrite decide_False by (by intros ?). reflexivity.
Qed.

Lemma write_output_run (uniprot_ids : list string) (output_filename : string) d s :
  can_open output_filename s = true ->
  write_output uniprot_ids output_filename d s =
    (Ok tt,
     with_file output_filename
       (concat_lines
          (map (report_line d)
               (filter (fun pair => unique_elements pair = true)
                       (list_prod uniprot_ids uniprot_ids)))) s).
Proof.
  intros Hopen. unfold write_output. rewrite bind_run.
  rewrite open_write_run by done.
  by rewrite (write_output_loop d output_filename EmptyString).
Qed.

Lemma report_pairs_spec (uniprot_ids : list string) (pair : string * string) :
  pair ∈ report_pairs uniprot_ids
  ↔ pair.1 ∈ uniprot_ids ∧ pair.2 ∈ uniprot_ids ∧ pair.1 ≠ pair.2.
Proof.
  unfold report_pairs. rewrite list_elem_of_filter, unique_elements_spec.
  destruct pair as [a b]. rewrite list_elem_of_In, in_prod_iff, <- !list_elem_of_In.
  cbn. tauto.
Qed.

Lemma concat_lines_app (l l' : list string) :
  concat_lines (l ++ l') = concat_lines l +:+ concat_lines l'.
Proof.
  induction l as [|x l IH]; [done|].
  cbn [app concat_lines]. by rewrite IH, append_assoc.
Qed.

(** The text of the report around the line of a pair of two different
    identifiers of the list. *)
Lemma write_output_line_of_pair (uniprot_ids : list string) (output_filename : string)
    d (pair : string * string) s :
  can_open output_filename s = true ->
  pair.1 ∈ uniprot_ids -> pair.2 ∈ uniprot_ids -> pair.1 ≠ pair.2 ->
  ∃ before after : list (string * string),
    report_pairs uniprot_ids = before ++ pair :: after ∧
    files (write_output uniprot_ids output_filename d s).2 !! output_filename
    = Some (concat_lines (map (report_line d) before) +:+
            (report_line d pair +:+ concat_lines (map (report_line d) after))).
Proof.
  intros Hopen H1 H2 Hne.
  destruct (list_elem_of_split (report_pairs uniprot_ids) pair)
    as (before & after & Hsplit); [by apply report_pairs_spec|].
  exists before, after. split; [done|].
  rewrite write_output_run by done. cbn [snd]. rewrite with_file_lookup.
  fold (report_pairs uniprot_ids). rewrite Hsplit.
  by rewrite map_app, concat_lines_app.
Qed.

(** A name that cannot be opened: the [IOError] of [open], and nothing
    is written. *)
Lemma write_output_raises (uniprot_ids : list string) (output_filename : string) d s :
  can_open output_filename s = false ->
  write_output uniprot_ids output_filename d s = (Raise IOError, s).
Proof.
  intros Hopen. unfold write_output. rewrite bind_run.
  by rewrite open_write_raises.
Qed.

(** C1, as the code has it: the output file, when [open] opens it, is
    emptied and then gets, for the pairs of the cross product taken in
    order, one line per pair whose identifiers differ and none for a
    pair of an identifier with itself; the line holds the two
    identifiers and the stored E-value as [str] prints it, or [NA] when
    the pair is no key.  When [open] does not open the file, its
    [IOError] is all that happens. *)
Theorem write_output_report (uniprot_ids : list string) (output_filename : string)
    d s :
  (∀ pair : string * string, unique_elements pair = true ↔ pair.1 ≠ pair.2) ∧
  write_output uniprot_ids output_filename d s =
    if can_open output_filename s then
      (Ok tt,
       with_file output_filename
         (concat_lines
            (map (report_line d)
                 (filter (fun pair => unique_elements pair = true)
                         (list_prod uniprot_ids uniprot_ids)))) s)
    else (Raise IOError, s).
Proof.
  split; [apply unique_elements_spec|].
  destruct (can_open output_filename s) eqn:Hopen;
    [by apply write_output_run | by apply write_output_raises].
Qed.

End Writing.

(** ** The order of floats *)

Section FloatOrder.

Import PyFloat.

Ltac compare_cases :=
  repeat match goal with
         | |- context [Pos.compare_cont Eq ?a ?b] =>
             change (Pos.compare_cont Eq a b) with (Pos.compare a b)
         end;
  repeat match goal with
         | |- context [Z.compare ?a ?b] => destruct (Z.compare_spec a b)
         | |- context [Pos.compare ?a ?b] => destruct (Pos.compare_spec a b)
         end;
  cbn; try congruence; try lia.

Lemma lt_irrefl (x : float) : lt x x = false.
Proof.
  unfold lt, SFltb. destruct x as [sx|sx| |sx mx ex]; cbn;
    try destruct sx; cbn; try congruence; compare_cases.
Qed.

Lemma lt_asym (x y : float) : lt x y = true -> lt y x = false.
Proof.
  unfold lt, SFltb.
  destruct x as [sx|sx| |sx mx ex], y as [sy|sy| |sy my ey]; cbn;
    try destruct sx; try destruct sy; cbn; try congruence; compare_cases.
Qed.

(** Away from NaN, "not greater" is transitive. *)
Lemma not_lt_trans (x y z : float) :
  is_nan x = false -> is_nan y = false -> is_nan z = false ->
  lt y x = false -> lt z y = false -> lt z x = false.
Proof.
  unfold lt, SFltb.
  destruct x as [sx|sx| |sx mx ex], y as [sy|sy| |sy my ey],
           z as [sz|sz| |sz mz ez];
    cbn; try discriminate; intros _ _ _;
    try destruct sx; try destruct sy; try destruct sz; cbn; try congruence;
    compare_cases.
Qed.

End FloatOrder.

(** ** [plot_evalue_distribution] *)

Section Plotting.

Context {World : Type}.
Variable log10 : float -> option float.
Variable mean : list float -> float.
Variable hist_rejects : list float -> bool.
Variable image_file : string -> option string.
Implicit Types s : @state World.
Implicit Types d blast_dict : dict.
Implicit Types l : list float.

Lemma insert_sorted_perm (x : float) l : insert_sorted x l ≡ₚ x :: l.
Proof.
  induction l as [|y l IH]; cbn; [reflexivity|].
  destruct (PyFloat.lt y x); [|reflexivity].
  rewrite IH. apply perm_swap.
Qed.

(** [sorted] rearranges, whatever the comparison answers. *)
Lemma sorted_perm l : sorted l ≡ₚ l.
Proof.
  induction l as [|x l IH]; cbn; [reflexivity|].
  fold (sorted l). rewrite insert_sorted_perm. by rewrite IH.
Qed.

(** No element is greater than one that comes after it. *)
Definition ascending l : Prop :=
  ∀ (i j : nat) (x y : float),
    l !! i = Some x -> l !! j = Some y -> (i < j)%nat -> PyFloat.lt y x = false.

Lemma ascending_cons (x : float) l :
  ascending (x :: l) ↔ (∀ y, y ∈ l -> PyFloat.lt y x = false) ∧ ascending l.
Proof.
  split.
  - intros H. split.
    + intros y [j Hj]%list_elem_of_lookup.
      apply (H 0%nat (S j) x y); first [done | lia].
    + intros i j a b Hi Hj Hlt. apply (H (S i) (S j) a b); first [done | lia].
  - intros [Hx Hl] i j a b Hi Hj Hlt.
    destruct j as [|j]; [lia|]. cbn in Hj.
    destruct i as [|i]; cbn in Hi.
    + injection Hi as <-. apply Hx. eapply list_elem_of_lookup_2; eauto.
    + apply (Hl i j a b); first [done | lia].
Qed.

Lemma insert_sorted_ascending (x : float) l :
  PyFloat.is_nan x = false ->
  Forall (fun y => PyFloat.is_nan y = false) l ->
  ascending l -> ascending (insert_sorted x l).
Proof.
  intros Hx Hnan. induction l as [|y l IH]; intros Hasc.
  - cbn. apply ascending_cons. split; [by intros y ?%elem_of_nil|].
    intros i j a b Hi. by destruct i.
  - apply Forall_cons in Hnan as [Hy Hnan].
    apply ascending_cons in Hasc as [Hyl Hasc]. cbn.
    destruct (PyFloat.lt y x) eqn:Hlt; apply ascending_cons; split.
    + intros z Hz. rewrite insert_sorted_perm in Hz.
      apply elem_of_cons in Hz as [->|Hz]; [by apply lt_asym | by apply Hyl].
    + by apply IH.
    + intros z [->|Hz]%elem_of_cons; [done|].
      apply (not_lt_trans x y z); auto.
      rewrite Forall_forall in Hnan. by apply Hnan.
    + by apply ascending_cons.
Qed.

Lemma sorted_ascending l :
  Forall (fun y => PyFloat.is_nan y = false) l -> ascending (sorted l).
Proof.
  induction l as [|x l IH]; intros Hnan.
  - intros i j a b Hi. by destruct i.
  - apply Forall_cons in Hnan as [Hx Hnan]. cbn. fold (sorted l).
    apply insert_sorted_ascending; auto.
    by rewrite sorted_perm.
Qed.

(** The first index [numpy.nonzero] reports: the entry there is not
    zero and the entries before it are. *)
Lemma nonzero_from_first (i j : nat) l :
  index (nonzero_from i l) 0 = Ok j ->
  ∃ m, l !! (j - i)%nat = Some m ∧ (i <= j)%nat ∧ PyFloat.nonzero m = true ∧
       ∀ (k : nat) (x : float), (k < j - i)%nat -> l !! k = Some x ->
                                PyFloat.nonzero x = false.
Proof.
  revert i. induction l as [|y l IH]; intros i; cbn; [discriminate|].
  destruct (PyFloat.nonzero y) eqn:Hy.
  - cbn. intros [= <-]. exists y. replace (i - i)%nat with 0%nat by lia.
    repeat split; auto. intros k x Hk. lia.
  - intros (m & Hm & Hle & Hnz & Hbefore)%IH. exists m.
    replace (j - i)%nat with (S (j - S i)) by lia.
    repeat split; auto; [lia|].
    intros [|k] x Hk; cbn; [congruence|]. apply Hbefore. lia.
Qed.

Lemma nonzero_from_none (i : nat) l :
  Forall (fun x => PyFloat.nonzero x = false) l -> nonzero_from i l = [].
Proof.
  revert i. induction l as [|y l IH]; intros i Hl; [reflexivity|].
  apply Forall_cons in Hl as [Hy Hl]. cbn. rewrite Hy. by apply IH.
Qed.

Lemma nonzero_from_some (i : nat) l :
  Exists (fun x => PyFloat.nonzero x = true) l ->
  ∃ j, index (nonzero_from i l) 0 = Ok j.
Proof.
  revert i. induction l as [|y l IH]; intros i Hl; [by apply Exists_nil in Hl|].
  cbn. destruct (PyFloat.nonzero y) eqn:Hy; [by eexists|].
  apply Exists_cons in Hl as [Hl|Hl]; [congruence | by apply IH].
Qed.

(** With no NaN among the values, the entry the pseudocount is taken
    from is the smallest non-zero one. *)
Lemma first_nonzero_smallest l (j : nat) :
  Forall (fun y => PyFloat.is_nan y = false) l ->
  index (nonzero_from 0 (sorted l)) 0 = Ok j ->
  ∃ m, index (sorted l) j = Ok m ∧ m ∈ l ∧ PyFloat.nonzero m = true ∧
       ∀ x, x ∈ l -> PyFloat.nonzero x = true -> PyFloat.lt x m = false.
Proof.
  intros Hnan (m & Hm & _ & Hnz & Hbefore)%nonzero_from_first.
  rewrite Nat.sub_0_r in Hm, Hbefore.
  exists m. unfold index. rewrite Hm. split; [done|]. split.
  { rewrite <- (sorted_perm l). eapply list_elem_of_lookup_2; eauto. }
  split; [done|]. intros x Hx Hxnz.
  rewrite <- (sorted_perm l) in Hx. apply list_elem_of_lookup in Hx as [k Hk].
  destruct (Nat.lt_trichotomy k j) as [Hlt|[->|Hgt]].
  - rewrite (Hbefore k x Hlt Hk) in Hxnz. discriminate.
  - rewrite Hm in Hk. injection Hk as <-. apply lt_irrefl.
  - eapply (sorted_ascending l Hnan j k m x); eauto.
Qed.

Lemma map_list_logs (f : float -> option float) l (logs : list float) s :
  Forall2 (fun x y => f x = Some y) l logs ->
  map_list (fun x => match f x with
                     | Some y => mret y
                     | None => raise ValueError
                     end) l s = (Ok logs, s).
Proof.
  intros H. induction H as [|x y l logs Hxy _ IH]; [reflexivity|].
  cbn [map_list]. rewrite bind_run, Hxy. unfold_ret.
  rewrite bind_run, IH. reflexivity.
Qed.

(** The loop of lines 141 to 144 counts the values below the
    threshold. *)
Lemma count_lower_filter l (evalue : float) :
  count_lower l evalue =
  Z.of_nat (length (filter (fun x => PyFloat.lt x evalue = true) l)).
Proof.
  unfold count_lower.
  enough (H : ∀ n, fold_left (fun lower e_value =>
                     if PyFloat.lt e_value evalue then lower + 1 else lower) l n
                   = n + Z.of_nat (length (filter (fun x => PyFloat.lt x evalue = true) l)))
    by (rewrite H; lia).
  induction l as [|x l IH]; intros n; cbn [fold_left]; [cbn; lia|].
  rewrite IH, filter_cons. destruct (PyFloat.lt x evalue) eqn:E.
  - rewrite decide_True by done. cbn [length]. lia.
  - rewrite decide_False by congruence. lia.
Qed.

Lemma count_lower_sorted l (evalue : float) :
  count_lower (sorted l) evalue =
  Z.of_nat (length (filter (fun x => PyFloat.lt x evalue = true) l)).
Proof. by rewrite count_lower_filter, sorted_perm. Qed.

(** The function as a whole, when some value is not zero. *)
Lemma plot_evalue_distribution_run d (png_filename : string) (evalue m : float)
    (j : nat) (logs : list float) s :
  index (nonzero_from 0 (sorted (values d))) 0 = Ok j ->
  index (sorted (values d)) j = Ok m ->
  Forall2 (fun x y => log10 (PyFloat.add x (PyFloat.div m (PyFloat.of_Z 1000))) = Some y)
          (values d) logs ->
  plot_evalue_distribution log10 mean hist_rejects image_file d png_filename evalue s =
  if hist_rejects logs then
    (Raise ValueError,
     with_figure [Title ("Average log(e-value):" +:+ PyFloat.str (mean logs))] s)
  else
    match image_file png_filename with
    | None => (Raise ValueError, with_figure (histogram mean logs) s)
    | Some name =>
        if can_open name s
        then (Ok (count_lower (sorted (values d)) evalue),
              with_image name (histogram mean logs) s)
        else (Raise IOError, with_figure (histogram mean logs) s)
    end.
Proof.
  intros Hj Hm Hlogs. unfold plot_evalue_distribution.
  rewrite bind_run, Hj. unfold lift at 1. rewrite bind_run, Hm. unfold lift at 1.
  rewrite bind_run, (map_list_logs _ _ logs) by exact Hlogs.
  unfold with_image, with_figure, histogram. destruct s as [w p o f g i k].
  unfold mbind, M_bind, hist, pylab, savefig, can_open. unfold_ret. cbn.
  destruct (hist_rejects logs); [reflexivity|]. cbn.
  destruct (image_file png_filename) as [name|]; cbn;
    [|by rewrite <- !app_assoc].
  destruct (negb (String.eqb name EmptyString) && bool_decide (name ∉ k)); cbn;
    by rewrite <- !app_assoc.
Qed.

(** C5: when some stored E-value is not zero and none is a NaN, there
    is a smallest non-zero stored E-value [m]; and when every value
    plus [m / 1000.0] has a base-10 logarithm, the function draws the
    histogram of these logarithms, taken in the order of
    [blast_dict.values()], under its title and labels, and saves the
    figure in the file [pylab.savefig] writes for [png_filename],
    provided that [pylab.hist] takes the logarithms and that the file
    can be written.  When [pylab.hist] refuses the logarithms, as it
    does an infinity, the function raises its [ValueError] with the
    title drawn and no file written; when [pylab.savefig] does not know
    the format of the name or cannot open the file, the function raises
    its [ValueError] or [IOError] with the figure drawn and no file
    written. *)
Theorem plot_evalue_distribution_histogram d (png_filename : string)
    (evalue : float) s :
  (∃ x, x ∈ values d ∧ PyFloat.nonzero x = true) ->
  (∀ x, x ∈ values d -> PyFloat.is_nan x = false) ->
  ∃ m, m ∈ values d ∧ PyFloat.nonzero m = true ∧
       (∀ x, x ∈ values d -> PyFloat.nonzero x = true -> PyFloat.lt x m = false) ∧
       ∀ logs : list float,
         Forall2 (fun x y =>
                    log10 (PyFloat.add x (PyFloat.div m (PyFloat.of_Z 1000))) = Some y)
                 (values d) logs ->
         plot_evalue_distribution log10 mean hist_rejects image_file d png_filename evalue s =
         if hist_rejects logs then
           (Raise ValueError,
            with_figure [Title ("Average log(e-value):" +:+ PyFloat.str (mean logs))] s)
         else
           match image_file png_filename with
           | None => (Raise ValueError, with_figure (histogram mean logs) s)
           | Some name =>
               if can_open name s
               then (Ok (count_lower (sorted (values d)) evalue),
                     with_image name (histogram mean logs) s)
               else (Raise IOError, with_figure (histogram mean logs) s)
           end.
Proof.
  intros (x & Hx & Hxnz) Hnan.
  assert (Hnan' : Forall (fun y => PyFloat.is_nan y = false) (values d))
    by (by apply Forall_forall).
  destruct (nonzero_from_some 0 (sorted (values d))) as [j Hj].
  { apply Exists_exists. exists x. split; [|done]. by rewrite sorted_perm. }
  destruct (first_nonzero_smallest _ _ Hnan' Hj) as (m & Hm & Hin & Hmnz & Hmin).
  exists m. repeat split; auto. intros logs Hlogs.
  eapply plot_evalue_distribution_run; eauto.
Qed.

(** Without a non-zero value the first index into [nonzero_indices]
    is out of range. *)
Lemma plot_evalue_distribution_all_zero d (png_filename : string)
    (evalue : float) s :
  Forall (fun x => PyFloat.nonzero x = false) (values d) ->
  plot_evalue_distribution log10 mean hist_rejects image_file d png_filename evalue s = (Raise IndexError, s).
Proof.
  intros H. unfold plot_evalue_distribution.
  rewrite bind_run, nonzero_from_none; [reflexivity|].
  by rewrite sorted_perm.
Qed.

(** C6, at the dictionary of a run without hits: the function raises
    [IndexError] at line 124, before the loop that counts, and leaves
    the state as it found it. *)
Theorem plot_evalue_distribution_empty (png_filename : string) (evalue : float) s :
  plot_evalue_distribution log10 mean hist_rejects image_file ∅ png_filename evalue s = (Raise IndexError, s).
Proof.
  apply plot_evalue_distribution_all_zero.
  unfold values. rewrite map_to_list_empty. constructor.
Qed.

(** When the function returns, the count it ends with is the number of
    stored values below the threshold. *)
Lemma plot_evalue_distribution_count d (png_filename : string) (evalue : float)
    (n : Z) s s' :
  plot_evalue_distribution log10 mean hist_rejects image_file d png_filename evalue s = (Ok n, s') ->
  n = Z.of_nat (length (filter (fun x => PyFloat.lt x evalue = true) (values d))).
Proof.
  unfold plot_evalue_distribution. rewrite bind_run.
  destruct (index (nonzero_from 0 (sorted (values d))) 0) as [j|e];
    unfold lift at 1; [|discriminate].
  rewrite bind_run.
  destruct (index (sorted (values d)) j) as [m|e]; unfold lift at 1; [|discriminate].
  rewrite bind_run.
  match goal with |- context [map_list ?f ?l s] => destruct (map_list f l s) as [[ys|e] s1] end;
    [|discriminate].
  unfold mbind, M_bind, hist, pylab, savefig. unfold_ret. cbn.
  destruct (hist_rejects ys); cbn; [discriminate|].
  destruct (image_file png_filename) as [name|]; cbn; [|discriminate].
  match goal with |- context [can_open ?a ?b] => destruct (can_open a b) end;
    cbn; [|discriminate].
  intros [= <- _]. apply count_lower_sorted.
Qed.

End Plotting.

(** ** [blast] and [main] *)

Section Running.

Context {World : Type}.
Variable shell : string -> World -> string * World.
Variable log10 : float -> option float.
Variable mean : list float -> float.
Variable hist_rejects : list float -> bool.
Variable image_file : string -> option string.
Implicit Types s : @state World.
Implicit Types d blast_dict : dict.
Local Abbreviation keeps m := (@keeps_log World _ m).

(** C9: with an [evalue] that is not a string, the concatenation that
    builds the command raises [TypeError] in either branch, and the
    state, with its record of started commands, is as before. *)
Theorem blast_evalue_type_error (db query query_folder blast_path : string)
    (psiblast : bool) (evalue : pyval) s :
  (∀ text, evalue ≠ VStr text) ->
  blast shell db query query_folder blast_path psiblast evalue s
  = (Raise TypeError, s).
Proof.
  intros Hne. unfold blast.
  destruct evalue as [text| | | |]; [by destruct (Hne text)|..];
    destruct psiblast; reflexivity.
Qed.

(** C10: [blast_path] does not reach the command: two calls that
    differ in it only start the same command in the same world, return
    the same output and leave the same state. *)
Theorem blast_ignores_blast_path (db query query_folder blast_path blast_path' : string)
    (psiblast : bool) (evalue : pyval) s :
  blast shell db query query_folder blast_path psiblast evalue s
  = blast shell db query query_folder blast_path' psiblast evalue s.
Proof. reflexivity. Qed.

(** With a string for [evalue], the call in [main] starts the command
    of the line. *)
Lemma blast_run (db query_folder blast_path : string) (psiblast : bool)
    (evalue line : string) s :
  blast shell db (clean_uniprot line +:+ ".fasta") query_folder blast_path psiblast
        (VStr evalue) s
  = let cmd := blast_command query_folder db psiblast evalue line in
    (Ok (shell cmd (world s)).1, after_command shell cmd s).
Proof.
  unfold blast, blast_command, after_command.
  destruct psiblast; cbn [negb];
    unfold mbind, M_bind, lift, str_add, popen_read; unfold_ret; cbv beta iota;
    rewrite !append_assoc;
    match goal with |- context [shell ?c (world s)] => destruct (shell c (world s)) end;
    reflexivity.
Qed.

(** *** Nothing but [blast] starts a command *)

Lemma keeps_log_ret {A : Type} (a : A) : keeps (mret a).
Proof. intros s. repeat split. Qed.

Lemma keeps_log_raise {A : Type} (e : exn) : keeps (raise (A:=A) e).
Proof. intros s. repeat split. Qed.

Lemma keeps_log_lift {A : Type} (r : result A) : keeps (lift r).
Proof. intros s. repeat split. Qed.

Lemma keeps_log_bind {A B : Type} (m : @M World A) (k : A -> @M World B) :
  keeps m -> (∀ a, keeps (k a)) -> keeps (m ≫= k).
Proof.
  intros Hm Hk s. rewrite bind_run. destruct (Hm s) as (Hl & Hw & Hn).
  destruct (m s) as [[a|e] s1]; cbn in *; [|done].
  destruct (Hk a s1) as (-> & -> & ->). done.
Qed.

Lemma keeps_log_for_fold {A B : Type} (body : B -> A -> @M World B) (l : list A) (acc : B) :
  (∀ b a, keeps (body b a)) -> keeps (for_fold body l acc).
Proof.
  intros Hbody. revert acc. induction l as [|x l IH]; intros acc.
  - apply keeps_log_ret.
  - cbn [for_fold]. apply keeps_log_bind; auto.
Qed.

Lemma keeps_log_map_list {A B : Type} (f : A -> @M World B) (l : list A) :
  (∀ a, keeps (f a)) -> keeps (map_list f l).
Proof.
  intros Hf. induction l as [|x l IH]; [apply keeps_log_ret|].
  cbn [map_list]. apply keeps_log_bind; [auto|]. intros y.
  apply keeps_log_bind; [auto|]. intros ys. apply keeps_log_ret.
Qed.

Lemma keeps_log_parse_line d (line : string) : keeps (parse_line d line).
Proof.
  unfold parse_line. destruct (is_data_line line); [|apply keeps_log_ret].
  destruct (extract_fields line) as [[[q sj] ev]|[]].
  - destruct (PyFloat.float_of_string ev);
      [apply keeps_log_ret | apply keeps_log_raise].
  - apply keeps_log_bind; [|intros; apply keeps_log_ret].
    destruct (negb (PyStr.endswith line "CONVERGED!")); by intros s.
  - apply keeps_log_raise.
  - apply keeps_log_raise.
  - apply keeps_log_raise.
Qed.

Lemma keeps_log_parse_blast_result (blast_result : string) d :
  keeps (parse_blast_result blast_result d).
Proof. apply keeps_log_for_fold. intros. apply keeps_log_parse_line. Qed.

Lemma keeps_log_write_output (uniprot_ids : list string) (output_filename : string) d :
  keeps (write_output uniprot_ids output_filename d).
Proof.
  intros s. destruct (can_open output_filename s) eqn:Hopen.
  - rewrite write_output_run by done. repeat split.
  - rewrite write_output_raises by done. repeat split.
Qed.

Lemma keeps_log_hist (data : list float) : keeps (hist hist_rejects data).
Proof. intros s. unfold hist. by destruct (hist_rejects data). Qed.

Lemma keeps_log_savefig (png_filename : string) :
  keeps (savefig image_file png_filename).
Proof.
  intros s. unfold savefig. destruct (image_file png_filename) as [name|]; [|done].
  by destruct (can_open name s).
Qed.

Lemma keeps_log_plot d (png_filename : string) (evalue : float) :
  keeps (plot_evalue_distribution log10 mean hist_rejects image_file d png_filename evalue).
Proof.
  unfold plot_evalue_distribution.
  repeat first
    [ apply keeps_log_bind; [|intros ?]
    | apply keeps_log_lift
    | apply keeps_log_ret
    | apply keeps_log_map_list; intros ?
    | apply keeps_log_hist
    | apply keeps_log_savefig
    | match goal with |- keeps (match ?x with _ => _ end) => destruct x end
    | apply keeps_log_raise
    | by intros s ].
Qed.

(** *** The loop of [main] *)

(** Output whose floats all parse is parsed to the end. *)
Lemma parse_lines_ok (lines : list string) d s :
  (∀ line query subject e_value,
     line ∈ lines -> is_data_line line = true ->
     extract_fields line = Ok (query, subject, e_value) ->
     is_Some (PyFloat.float_of_string e_value)) ->
  ∃ d' s', for_fold parse_line lines d s = (Ok d', s').
Proof.
  revert d s. induction lines as [|l lines IH]; intros d s H; [by eexists _, _|].
  rewrite for_fold_cons.
  destruct (parse_line d l s) as [[d1|e] s1] eqn:E.
  - apply IH. intros line q sj ev Hin. apply H. by apply elem_of_cons; right.
  - exfalso. revert E. unfold parse_line.
    destruct (is_data_line l) eqn:Hd; [|discriminate].
    destruct (extract_fields l) as [[[q sj] ev]|e'] eqn:Hx.
    + destruct (H l q sj ev) as [x ->]; [apply elem_of_cons; by left|done..|].
      discriminate.
    + pose proof (extract_fields_raises _ _ Hx) as ->. rewrite bind_run.
      destruct (negb (PyStr.endswith l "CONVERGED!")); discriminate.
Qed.

Lemma main_step_run (query_folder db : string) (psiblast : bool)
    (output_filename evalue : string) (uniprot_ids : list string) d (line : string) s :
  main_step shell query_folder db psiblast output_filename (VStr evalue)
            (uniprot_ids, d) line s
  = let cmd := blast_command query_folder db psiblast evalue line in
    match parse_blast_result (shell cmd (world s)).1 d (after_command shell cmd s) with
    | (Ok d', s') => (Ok (uniprot_ids ++ [clean_uniprot line], d'), s')
    | (Raise e, s') => (Raise e, s')
    end.
Proof.
  unfold main_step. rewrite bind_run, blast_run. cbv beta iota zeta.
  rewrite bind_run.
  destruct (parse_blast_result _ d _) as [[d'|e] s']; reflexivity.
Qed.

Lemma parses_spec (out : string) : parses out = true ↔ floats_parse out.
Proof.
  unfold parses, floats_parse, float_fails. rewrite forallb_forall. split.
  - intros H line q sj ev Hin Hd Hx.
    apply list_elem_of_In, H in Hin. rewrite Hd, Hx in Hin. cbn in Hin.
    by destruct (PyFloat.float_of_string ev).
  - intros H line Hin%list_elem_of_In.
    destruct (is_data_line line) eqn:Hd; [|done]. cbn.
    destruct (extract_fields line) as [[[q sj] ev]|e] eqn:Hx; [|done].
    by destruct (H line q sj ev Hin Hd Hx) as [x ->].
Qed.

(** Output with a line that does not parse makes [parse_blast_result]
    raise. *)
Lemma parse_blast_result_fails (out : string) d s :
  parses out = false ->
  ∃ s', parse_blast_result out d s = (Raise ValueError, s').
Proof.
  unfold parses, parse_blast_result. intros H.
  assert (Hex : ∃ line, line ∈ PyStr.split_char "010" out ∧ float_fails line = true).
  { induction (PyStr.split_char "010" out) as [|l ls IH]; [discriminate|].
    cbn in H. destruct (float_fails l) eqn:Hl.
    - exists l. split; [apply elem_of_cons; by left | done].
    - destruct (IH H) as (line & Hin & Hf). exists line.
      split; [apply elem_of_cons; by right | done]. }
  destruct Hex as (line & Hin & Hf). unfold float_fails in Hf.
  destruct (is_data_line line) eqn:Hd; [|done]. cbn in Hf.
  destruct (extract_fields line) as [[[q sj] ev]|e] eqn:Hx; [|done].
  destruct (PyFloat.float_of_string ev) eqn:Hev; [done|].
  eapply parse_lines_value_error; eauto.
Qed.

Lemma parse_blast_result_passes (out : string) d s :
  parses out = true ->
  ∃ d' s', parse_blast_result out d s = (Ok d', s').
Proof. intros H%parses_spec. by apply parse_lines_ok. Qed.

Lemma length_outputs (cmds : list string) (w : World) :
  length (outputs shell cmds w) = length cmds.
Proof.
  revert w. induction cmds as [|cmd cmds IH]; intros w; [done|].
  cbn [outputs length]. by rewrite IH.
Qed.

Lemma started_all (outs : list string) :
  forallb parses outs = true -> started outs = length outs.
Proof.
  induction outs as [|out outs IH]; [done|]. cbn.
  intros [-> H]%andb_prop. by rewrite IH.
Qed.

Lemma started_first (outs : list string) (i : nat) (out : string) :
  outs !! i = Some out -> parses out = false ->
  (∀ (j : nat) out', (j < i)%nat -> outs !! j = Some out' -> parses out' = true) ->
  started outs = S i ∧ forallb parses outs = false.
Proof.
  revert i. induction outs as [|o outs IH]; intros i Hi Hout Hbefore; [done|].
  destruct i as [|i]; cbn in Hi.
  - injection Hi as ->. cbn. by rewrite Hout.
  - cbn. rewrite (Hbefore 0%nat o) by (done || lia).
    destruct (IH i Hi Hout) as [-> ->]; [|done].
    intros j out' Hj Hl. apply (Hbefore (S j) out'); [lia | done].
Qed.

(** The commands the loop starts are those of the lines up to and
    including the first whose output does not parse, in the order of
    the lines, each started in the world the one before it left; the
    loop ends normally when every output parses and with the
    [ValueError] otherwise. *)
Lemma main_loop_log (query_folder db : string) (psiblast : bool)
    (output_filename evalue : string) (lines : list string)
    (acc : list string * dict) s :
  let cmds := map (blast_command query_folder db psiblast evalue) lines in
  let outs := outputs shell cmds (world s) in
  let run := for_fold (main_step shell query_folder db psiblast output_filename
                                 (VStr evalue)) lines acc s in
  popen_log run.2 = popen_log s ++ take (started outs) cmds ∧
  world run.2 = run_commands shell (take (started outs) cmds) (world s) ∧
  locked run.2 = locked s ∧
  (if forallb parses outs then ∃ a, run.1 = Ok a else run.1 = Raise ValueError).
Proof.
  cbv zeta. revert acc s. induction lines as [|line lines IH]; intros [ids d] s.
  - cbn. rewrite app_nil_r. repeat split; eauto.
  - rewrite for_fold_cons, main_step_run. cbv zeta.
    cbn [map outputs started forallb].
    set (cmd := blast_command query_folder db psiblast evalue line).
    destruct (keeps_log_parse_blast_result (shell cmd (world s)).1 d
                (after_command shell cmd s)) as (Hlog & Hworld & Hlocked).
    destruct (parses (shell cmd (world s)).1) eqn:Hp.
    + destruct (parse_blast_result_passes _ d (after_command shell cmd s) Hp)
        as (d' & s' & E).
      rewrite E in *. cbn in Hlog, Hworld, Hlocked.
      destruct (IH (ids ++ [clean_uniprot line], d') s')
        as (Hpl & Hw & Hl & Hend).
      rewrite Hworld in *. cbn [take andb].
      split; [rewrite Hpl, Hlog; by rewrite <- app_assoc|].
      split; [by rewrite Hw|]. split; [by rewrite Hl|]. exact Hend.
    + destruct (parse_blast_result_fails _ d (after_command shell cmd s) Hp)
        as (s' & E).
      rewrite E in *. cbn in Hlog, Hworld, Hlocked. cbn [take andb fst snd].
      rewrite take_0. repeat split; done.
Qed.

(** C7, as the code has it: with a string for [evalue], the commands
    [main] starts are the commands of the lines of the identifier file
    up to and including the first whose output does not pass [float],
    one per line, in the order of the file, each started in the world
    the one before it left when its output was read to the end: all of
    them when every output passes, and otherwise those up to and
    including line [i], the first whose output does not pass, where the
    run ends with the [ValueError]. *)
Theorem main_invocations (uniprot_id_list query_folder db : string) (psiblast : bool)
    (output_filename output_png evalue text : string) s :
  files s !! uniprot_id_list = Some text ->
  let lines := PyStr.readlines text in
  let cmds := map (blast_command query_folder db psiblast evalue) lines in
  let outs := outputs shell cmds (world s) in
  let run := main shell log10 mean hist_rejects image_file uniprot_id_list query_folder db psiblast
                  output_filename output_png (VStr evalue) s in
  let k := started outs in
  popen_log run.2 = popen_log s ++ take k cmds ∧
  world run.2 = run_commands shell (take k cmds) (world s) ∧
  (Forall floats_parse outs -> k = length lines) ∧
  (∀ (i : nat) (out : string),
     outs !! i = Some out -> ¬ floats_parse out ->
     (∀ (j : nat) out', (j < i)%nat -> outs !! j = Some out' -> floats_parse out') ->
     k = S i ∧ run.1 = Raise ValueError).
Proof.
  intros Hfile. cbv zeta. unfold main, main_loop.
  rewrite bind_run. unfold open_read. rewrite Hfile. rewrite bind_run.
  destruct (main_loop_log query_folder db psiblast output_filename evalue
              (PyStr.readlines text) ([], ∅) s) as (Hpl & Hw & Hl & Hend).
  cbv zeta in Hpl, Hw, Hl, Hend.
  set (cmds := map (blast_command query_folder db psiblast evalue)
                   (PyStr.readlines text)) in *.
  set (outs := outputs shell cmds (world s)) in *.
  assert (Hlen : length outs = length (PyStr.readlines text)).
  { subst outs cmds. by rewrite length_outputs, length_map. }
  destruct (for_fold _ (PyStr.readlines text) ([], ∅) s) as [[[ids d]|e] s1];
    cbn [fst snd] in *.
  - assert (Htail : @keeps_log World _
              (write_output ids output_filename d;;
               plot_evalue_distribution log10 mean hist_rejects image_file d output_png plot_default_evalue;;
               mret tt)).
    { apply keeps_log_bind; [apply keeps_log_write_output|]. intros _.
      apply keeps_log_bind; [apply keeps_log_plot|]. intros _.
      apply keeps_log_ret. }
    destruct (Htail s1) as (Hl1 & Hw1 & _).
    split; [by rewrite <- Hpl|]. split; [by rewrite <- Hw|].
    destruct (forallb parses outs) eqn:Hall; [|discriminate].
    split; [intros _; by rewrite started_all|].
    intros i out Hi Hout Hbefore. exfalso.
    destruct (started_first outs i out Hi) as [_ Hno]; [| |congruence].
    + destruct (parses out) eqn:Hp; [|done]. by apply parses_spec in Hp.
    + intros j out' Hj Hl'. apply parses_spec. eauto.
  - split; [done|]. split; [done|].
    destruct (forallb parses outs) eqn:Hall; [by destruct Hend|].
    injection Hend as ->. split.
    + intros HF. exfalso. apply not_true_iff_false in Hall. apply Hall.
      apply forallb_forall. intros out Hin. apply parses_spec.
      rewrite Forall_forall in HF. by apply HF, list_elem_of_In.
    + intros i out Hi Hout Hbefore.
      destruct (started_first outs i out Hi) as [-> _]; [| |done].
      * destruct (parses out) eqn:Hp; [|done]. by apply parses_spec in Hp.
      * intros j out' Hj Hl'. apply parses_spec. eauto.
Qed.

End Running.

(** ** From the tool's text to the report *)

Section RoundTrip.

Context {World : Type}.
Implicit Types s : @state World.
Implicit Types d blast_dict : dict.

(** What the loop body does to the dictionary, by the key of the
    line. *)
Lemma parse_line_by_key d d' (line : string) s s' :
  parse_line d line s = (Ok d', s') ->
  (stored_key line = None ∧ d' = d) ∨
  (∃ query subject e_value x,
      is_data_line line = true ∧
      extract_fields line = Ok (query, subject, e_value) ∧
      stored_key line = Some (query, subject) ∧
      PyFloat.float_of_string e_value = Some x ∧
      d' = <[(query, subject) := x]> d).
Proof.
  unfold parse_line, stored_key. destruct (is_data_line line) eqn:Hd.
  - destruct (extract_fields line) as [[[q sj] ev]|e] eqn:Hx.
    + destruct (PyFloat.float_of_string ev) as [x|] eqn:Hf; [|discriminate].
      intros [= <- <-]. right. by exists q, sj, ev, x.
    + pose proof (extract_fields_raises _ _ Hx) as ->. rewrite bind_run.
      destruct (negb (PyStr.endswith line "CONVERGED!"));
        unfold print; unfold_ret; intros [= <- <-]; by left.
  - unfold_ret. intros [= <- <-]. by left.
Qed.

(** A value of the returned dictionary was there from the start and
    no line stored under its key, or it is the float of the E-value
    field of the last line that stored under its key. *)
Lemma parse_lines_last (lines : list string) d0 d s s'
    (pair : string * string) (x : float) :
  for_fold parse_line lines d0 s = (Ok d, s') ->
  d !! pair = Some x ->
  (d0 !! pair = Some x ∧ ∀ l, l ∈ lines -> stored_key l ≠ Some pair) ∨
  (∃ pre line post e_value,
      lines = pre ++ line :: post ∧
      is_data_line line = true ∧
      extract_fields line = Ok (pair.1, pair.2, e_value) ∧
      PyFloat.float_of_string e_value = Some x ∧
      ∀ l, l ∈ post -> stored_key l ≠ Some pair).
Proof.
  revert d0 s. induction lines as [|l lines IH]; intros d0 s.
  - intros [= <- <-] Hx. left. split; [done|]. by intros l ?%elem_of_nil.
  - rewrite for_fold_cons.
    destruct (parse_line d0 l s) as [[d1|e] s1] eqn:E; [|discriminate].
    intros Hrest Hx.
    destruct (IH d1 s1 Hrest Hx) as [[H1 Hnone]|(pre & line & post & ev & -> & ?)].
    + apply parse_line_by_key in E
        as [[Hkey ->]|(q & sj & ev & y & Hd & Hext & Hkey & Hf & ->)].
      * left. split; [done|].
        intros l' [->|Hin]%elem_of_cons; [congruence | by apply Hnone].
      * destruct (decide ((q, sj) = pair)) as [<-|Hne].
        -- rewrite lookup_insert_eq in H1. injection H1 as ->.
           right. by exists [], l, lines, ev.
        -- rewrite lookup_insert_ne in H1 by done.
           left. split; [done|].
           intros l' [->|Hin]%elem_of_cons; [congruence | by apply Hnone].
    + right. by exists (l :: pre), line, post, ev.
Qed.

(** C8, as the code has it: in the file [write_output] writes, the
    line of a pair of the dictionary made of two different identifiers
    of the list is the two identifiers and [str] of the stored float,
    and the stored float is [float] of the E-value field of the last
    line of the tool's output with that pair, or the float the
    dictionary held before when the output has no line with that
    pair. *)
Theorem written_score_of_last_line (blast_result : string) d0 d s s'
    (uniprot_ids : list string) (output_filename : string) s2
    (pair : string * string) (x : float) :
  parse_blast_result blast_result d0 s = (Ok d, s') ->
  d !! pair = Some x ->
  pair.1 ∈ uniprot_ids -> pair.2 ∈ uniprot_ids -> pair.1 ≠ pair.2 ->
  can_open output_filename s2 = true ->
  (∃ before after : list (string * string),
      report_pairs uniprot_ids = before ++ pair :: after ∧
      files (write_output uniprot_ids output_filename d s2).2 !! output_filename
      = Some (concat_lines (map (report_line d) before) +:+
              ((pair.1 +:+ tab +:+ pair.2 +:+ tab +:+ PyFloat.str x +:+ nl) +:+
               concat_lines (map (report_line d) after)))) ∧
  ((d0 !! pair = Some x ∧
    ∀ l, l ∈ PyStr.split_char "010" blast_result -> stored_key l ≠ Some pair) ∨
   (∃ pre line post e_value,
       PyStr.split_char "010" blast_result = pre ++ line :: post ∧
       is_data_line line = true ∧
       extract_fields line = Ok (pair.1, pair.2, e_value) ∧
       PyFloat.float_of_string e_value = Some x ∧
       ∀ l, l ∈ post -> stored_key l ≠ Some pair)).
Proof.
  intros Hparse Hx H1 H2 Hne Hopen. split.
  - destruct (write_output_line_of_pair uniprot_ids output_filename d pair s2)
      as (before & after & Hsplit & Hfile); try done.
    exists before, after. split; [done|].
    rewrite Hfile. unfold report_line at 2, score_text. by rewrite Hx.
  - eapply parse_lines_last; eauto.
Qed.

End RoundTrip.

(** ** The statements at the sample run *)

Section Examples.

Import Sample.

Lemma parse_blast_result_stores_witness :
  PyFloat.float_of_string "10" = Some ten ∧
  parse_line ∅ "sp|A|x sp|B|y 10" idle = (Ok (<[("A", "B") := ten]> ∅), idle).
Proof.
  split; [vm_compute; reflexivity|].
  refine (proj1 (parse_blast_result_stores hits []
                   ["# BLASTP"; "no hits"; "Search has CONVERGED!"]
                   "sp|A|x sp|B|y 10" "sp|A|x" "sp|B|y" "10" "A" "B" ten ∅ idle
                   _ _ _ _ _ _ _ _)); vm_compute; reflexivity.
Defined.

Lemma parse_blast_result_index_error_witness :
  extract_fields "no hits" = Raise IndexError ∧
  parse_line one_hit "no hits" idle = (Ok one_hit, warned "no hits" idle).
Proof.
  split; [vm_compute; reflexivity|].
  refine (proj1 (proj2 (parse_blast_result_index_error hits
                          ["sp|A|x sp|B|y 10"; "# BLASTP"] ["Search has CONVERGED!"]
                          "no hits" IndexError one_hit idle _ _ _)));
    vm_compute; reflexivity.
Defined.

Lemma parse_blast_result_value_error_witness :
  PyFloat.float_of_string "abc" = None ∧
  ∃ s', parse_blast_result bad_hits ∅ idle = (Raise ValueError, s').
Proof.
  split; [vm_compute; reflexivity|].
  refine (proj2 (parse_blast_result_value_error bad_hits bad_hits "A" "B" "abc"
                   ∅ idle _ _ _ _));
    [apply list_elem_of_here | vm_compute; reflexivity ..].
Defined.

Lemma write_output_report_witness :
  can_open "out" idle = true ∧
  files (write_output ["A"; "B"] "out" one_hit idle).2 !! "out"
  = Some ("A" +:+ tab +:+ "B" +:+ tab +:+ "10.0" +:+ nl +:+
          "B" +:+ tab +:+ "A" +:+ tab +:+ "NA" +:+ nl).
Proof.
  assert (Hopen : can_open "out" idle = true) by (vm_compute; reflexivity).
  split; [exact Hopen|].
  rewrite (proj2 (write_output_report ["A"; "B"] "out" one_hit idle)), Hopen.
  vm_compute; reflexivity.
Defined.

(** C1 as the specification words it fails on a single identifier: the
    pair of the identifier with itself gets no line. *)
Lemma write_output_self_pair_counterexample :
  every_pair_report ["A"] ∅ = "A" +:+ tab +:+ "A" +:+ tab +:+ "NA" +:+ nl ∧
  files (write_output ["A"] "out" ∅ idle).2 !! "out" = Some EmptyString ∧
  files (write_output ["A"] "out" ∅ idle).2 !! "out" ≠ Some (every_pair_report ["A"] ∅).
Proof.
  split; [vm_compute; reflexivity|].
  split; [vm_compute; reflexivity|].
  vm_compute. discriminate.
Qed.

(** The score of the sample hit: the tool printed [10], the report
    shows [10.0]. *)
Lemma written_score_counterexample :
  extract_fields "sp|A|x sp|B|y 10" = Ok ("A", "B", "10") ∧
  parse_blast_result "sp|A|x sp|B|y 10" ∅ idle = (Ok one_hit, idle) ∧
  files (write_output ["A"; "B"] "out" one_hit idle).2 !! "out"
    = Some ("A" +:+ tab +:+ "B" +:+ tab +:+ "10.0" +:+ nl +:+
            "B" +:+ tab +:+ "A" +:+ tab +:+ "NA" +:+ nl) ∧
  score_text one_hit ("A", "B") ≠ "10".
Proof.
  split; [vm_compute; reflexivity|].
  split; [vm_compute; reflexivity|].
  split; [vm_compute; reflexivity|].
  vm_compute. discriminate.
Qed.

Lemma written_score_of_last_line_witness :
  parse_blast_result hits ∅ idle = (Ok one_hit, warned "no hits" idle) ∧
  ∃ before after : list (string * string),
    report_pairs ["A"; "B"] = before ++ ("A", "B") :: after ∧
    files (write_output ["A"; "B"] "out" one_hit (warned "no hits" idle)).2 !! "out"
    = Some (concat_lines (map (report_line one_hit) before) +:+
            (("A" +:+ tab +:+ "B" +:+ tab +:+ PyFloat.str ten +:+ nl) +:+
             concat_lines (map (report_line one_hit) after))).
Proof.
  assert (H : parse_blast_result hits ∅ idle = (Ok one_hit, warned "no hits" idle))
    by (vm_compute; reflexivity).
  split; [exact H|].
  refine (proj1 (written_score_of_last_line hits ∅ one_hit idle
                   (warned "no hits" idle) ["A"; "B"] "out" (warned "no hits" idle)
                   ("A", "B") ten H _ _ _ _ _)).
  - vm_compute; reflexivity.
  - apply list_elem_of_here.
  - apply list_elem_of_further, list_elem_of_here.
  - discriminate.
  - vm_compute; reflexivity.
Defined.

Lemma plot_evalue_distribution_histogram_witness :
  values one_hit = [ten] ∧
  ∃ m, m ∈ values one_hit ∧ PyFloat.nonzero m = true ∧
       (∀ x, x ∈ values one_hit -> PyFloat.nonzero x = true -> PyFloat.lt x m = false) ∧
       ∀ logs : list float,
         Forall2 (fun x y =>
                    log10 (PyFloat.add x (PyFloat.div m (PyFloat.of_Z 1000))) = Some y)
                 (values one_hit) logs ->
         plot_evalue_distribution log10 mean hist_rejects image_file one_hit "plot.png"
           plot_default_evalue idle =
         if hist_rejects logs then
           (Raise ValueError,
            with_figure [Title ("Average log(e-value):" +:+ PyFloat.str (mean logs))]
                        idle)
         else
           match image_file "plot.png" with
           | None => (Raise ValueError, with_figure (histogram mean logs) idle)
           | Some name =>
               if can_open name idle
               then (Ok (count_lower (sorted (values one_hit)) plot_default_evalue),
                     with_image name (histogram mean logs) idle)
               else (Raise IOError, with_figure (histogram mean logs) idle)
           end.
Proof.
  assert (H : values one_hit = [ten]) by (vm_compute; reflexivity).
  split; [exact H|].
  apply (plot_evalue_distribution_histogram log10 mean hist_rejects image_file one_hit "plot.png"
           plot_default_evalue idle).
  - exists ten. rewrite H. split; [apply list_elem_of_here | vm_compute; reflexivity].
  - intros x. rewrite H. intros ->%list_elem_of_singleton. reflexivity.
Defined.

(** The plot of the sample hit: one value below the threshold, and the
    figure saved as the image. *)
Example plot_sample_image :
  let run := plot_evalue_distribution log10 mean hist_rejects image_file one_hit
                                      "plot.png" plot_default_evalue idle in
  run.1 = Ok 1 ∧
  files run.2 = ∅ ∧
  ∃ y, images run.2 !! "plot.png"
       = Some [Title "Average log(e-value):0.0"; Hist [y];
               Xlabel "log(e-value)"; Ylabel "Frequency"].
Proof. cbv zeta. repeat split; [vm_compute; reflexivity..|]. eexists. vm_compute. reflexivity. Qed.

Lemma blast_evalue_type_error_witness :
  args_evalue None = blast_default_evalue ∧
  blast shell "db" "A.fasta" blast_default_query_folder "" false
        blast_default_evalue idle = (Raise TypeError, idle).
Proof.
  split; [reflexivity|].
  apply (blast_evalue_type_error shell "db" "A.fasta" blast_default_query_folder ""
           false blast_default_evalue idle).
  intros text. discriminate.
Defined.

(** C7 as the specification words it fails when an output does not
    parse: of the two identifiers only the first is looked up. *)
Lemma main_stops_early_counterexample :
  length (PyStr.readlines ("A" +:+ nl +:+ "B" +:+ nl)) = 2%nat ∧
  main bad_shell log10 mean hist_rejects image_file "ids" "q/" "db" false "out" "plot.png" (VStr "10") with_ids
  = (Raise ValueError,
     State 1%nat [blast_command "q/" "db" false "10" ("A" +:+ nl)] []
           (files with_ids) [] ∅ ∅).
Proof. split; vm_compute; reflexivity. Qed.

Lemma main_invocations_witness :
  let lines := PyStr.readlines ("A" +:+ nl +:+ "B" +:+ nl) in
  let cmds := map (blast_command "q/" "db" false "10") lines in
  let outs := outputs bad_shell cmds (world with_ids) in
  let run := main bad_shell log10 mean hist_rejects image_file "ids" "q/" "db" false "out"
                  "plot.png" (VStr "10") with_ids in
  let k := started outs in
  popen_log run.2 = popen_log with_ids ++ take k cmds ∧
  world run.2 = run_commands bad_shell (take k cmds) (world with_ids) ∧
  (Forall floats_parse outs -> k = length lines) ∧
  (∀ (i : nat) (out : string),
     outs !! i = Some out -> ¬ floats_parse out ->
     (∀ (j : nat) out', (j < i)%nat -> outs !! j = Some out' -> floats_parse out') ->
     k = S i ∧ run.1 = Raise ValueError).
Proof.
  apply (main_invocations bad_shell log10 mean hist_rejects image_file "ids" "q/" "db" false
           "out" "plot.png" "10" ("A" +:+ nl +:+ "B" +:+ nl) with_ids).
  vm_compute; reflexivity.
Defined.

(** The sample world's output parses, so both identifiers are looked
    up, in the order of the file, and the report has the two lines of
    the pairs of different identifiers. *)
Example main_sample_commands :
  let run := main shell log10 mean hist_rejects image_file "ids" "q/" "db" false "out" "plot.png"
                  (VStr "10") with_ids in
  run.1 = Ok tt ∧
  world run.2 = 2%nat ∧
  popen_log run.2
  = ["blastp -query=q/A.fasta -db=db -outfmt=" +:+ dquote +:+ "6 qacc sacc evalue"
       +:+ dquote +:+ " -evalue=10";
     "blastp -query=q/B.fasta -db=db -outfmt=" +:+ dquote +:+ "6 qacc sacc evalue"
       +:+ dquote +:+ " -evalue=10"] ∧
  files run.2 !! "out"
  = Some ("A" +:+ tab +:+ "B" +:+ tab +:+ "10.0" +:+ nl +:+
          "B" +:+ tab +:+ "A" +:+ tab +:+ "NA" +:+ nl) ∧
  stdout run.2 = [warning "no hits"; warning "no hits"].
Proof. cbv zeta. repeat split; vm_compute; reflexivity. Qed.

(** [float] and [str] on texts of the E-value column. *)
Example float_str_samples :
  map (fun text => PyFloat.str <$> PyFloat.float_of_string text)
      ["10"; "1e-5"; "2e-30"; "0.001"; "0.50"; "3.4"; "0.0"; "1e-180"; "abc"; "1e"]
  = [Some "10.0"; Some "1e-05"; Some "2e-30"; Some "0.001"; Some "0.5"; Some "3.4";
     Some "0.0"; Some "1e-180"; None; None].
Proof. vm_compute; reflexivity. Qed.

(** The string built-ins on a line of tabular output. *)
Example split_samples :
  PyStr.split_ws ("sp|P1|A_HUMAN" +:+ tab +:+ "sp|P2|B_HUMAN" +:+ tab +:+ "2e-30")
  = ["sp|P1|A_HUMAN"; "sp|P2|B_HUMAN"; "2e-30"] ∧
  PyStr.split_char "|" "sp|P1|A_HUMAN" = ["sp"; "P1"; "A_HUMAN"] ∧
  PyStr.split_char "010" ("a" +:+ nl +:+ nl +:+ "b" +:+ nl) = ["a"; ""; "b"; ""] ∧
  PyStr.readlines ("A" +:+ nl +:+ "B " +:+ nl +:+ "C") = ["A" +:+ nl; "B " +:+ nl; "C"] ∧
  map clean_uniprot ["A" +:+ nl; "B " +:+ nl; "C"] = ["A"; "B"; "C"].
Proof. repeat split; vm_compute; reflexivity. Qed.

(** An identifier file without lines: the report is written, empty,
    and the plot raises. *)
Example main_empty_file_raises :
  main shell log10 mean hist_rejects image_file "ids" "q/" "db" false "out" "plot.png" (VStr "10")
       (State 0%nat [] [] {[ "ids" := EmptyString ]} [] ∅ ∅)
  = (Raise IndexError,
     State 0%nat [] [] (<[ "out" := EmptyString ]> {[ "ids" := EmptyString ]}) [] ∅ ∅).
Proof. vm_compute; reflexivity. Qed.

(** With the default [evalue] of the parser no command is started. *)
Example main_default_evalue_raises :
  main shell log10 mean hist_rejects image_file "ids" "q/" "db" false "out" "plot.png"
       (args_evalue None) with_ids
  = (Raise TypeError, with_ids).
Proof. vm_compute; reflexivity. Qed.

End Examples.

(** ** Trailing characters: [clean_uniprot] and the query of [blast] *)

Section Cleaning.

Context {World : Type}.
Variable shell : string -> World -> string * World.
Implicit Types s : @state World.

Lemma length_snoc (t : string) (a : ascii) :
  String.length (t +:+ String a EmptyString) = S (String.length t).
Proof.
  induction t as [|x t IH]; [reflexivity|].
  change (S (String.length (t +:+ String a EmptyString)) = S (S (String.length t))).
  by rewrite IH.
Qed.

Lemma substring_last (t : string) (a : ascii) :
  substring (String.length t) 1 (t +:+ String a EmptyString) = String a EmptyString.
Proof.
  induction t as [|x t IH]; [reflexivity|].
  change (substring (String.length t) 1 (t +:+ String a EmptyString)
          = String a EmptyString).
  exact IH.
Qed.

Lemma substring_front (t u : string) :
  substring 0 (String.length t) (t +:+ u) = t.
Proof.
  induction t as [|x t IH]; [by destruct u|].
  change (String x (substring 0 (String.length t) (t +:+ u)) = String x t).
  by rewrite IH.
Qed.

(** Whether a text ends with a character is decided by its last
    character. *)
Lemma endswith_snoc (t : string) (a c : ascii) :
  PyStr.endswith (t +:+ String a EmptyString) (String c EmptyString) = Ascii.eqb a c.
Proof.
  unfold PyStr.endswith. rewrite length_snoc.
  change (String.length (String c EmptyString)) with 1%nat.
  replace (S (String.length t) - 1)%nat with (String.length t) by lia.
  rewrite substring_last. cbn. by destruct (Ascii.eqb a c).
Qed.

Lemma drop_last_snoc (t : string) (a : ascii) :
  PyStr.drop_last (t +:+ String a EmptyString) = t.
Proof.
  unfold PyStr.drop_last. rewrite length_snoc.
  replace (S (String.length t) - 1)%nat with (String.length t) by lia.
  apply substring_front.
Qed.

Lemma snoc_view (t : string) :
  t = EmptyString ∨ ∃ u a, t = u +:+ String a EmptyString.
Proof.
  induction t as [|x t IH]; [by left|]. right.
  destruct IH as [->|(u & a & ->)].
  - by exists EmptyString, x.
  - by exists (String x u), a.
Qed.

(** A text that ends with a character is the text without its last
    character followed by that character. *)
Lemma endswith_drop_last (t : string) (c : ascii) :
  PyStr.endswith t (String c EmptyString) = true ->
  t = PyStr.drop_last t +:+ String c EmptyString.
Proof.
  destruct (snoc_view t) as [->|(u & a & ->)]; [discriminate|].
  rewrite endswith_snoc, drop_last_snoc. by intros ->%Ascii.eqb_eq.
Qed.

(** X1: a line of the identifier file loses its newline, and the one
    space before the newline if there is one; a text that ends with
    neither is returned as it is. *)
Theorem clean_uniprot_line_end (id : string) :
  PyStr.endswith id " " = false ->
  clean_uniprot (id +:+ nl) = id ∧
  clean_uniprot (id +:+ " " +:+ nl) = id ∧
  (PyStr.endswith id nl = false -> clean_uniprot id = id).
Proof.
  intros Hsp. unfold clean_uniprot, nl. split; [|split].
  - by rewrite endswith_snoc, Ascii.eqb_refl, drop_last_snoc, Hsp.
  - rewrite <- append_assoc.
    by rewrite endswith_snoc, Ascii.eqb_refl, drop_last_snoc, endswith_snoc,
         Ascii.eqb_refl, drop_last_snoc.
  - intros Hnl. by rewrite Hnl, Hsp.
Qed.

(** X2: [clean_uniprot] returns its argument without a tail that is
    empty, a newline, a space, or a space and a newline: it removes
    nothing from the front and never more than two characters. *)
Theorem clean_uniprot_tail (uniprot : string) :
  ∃ tail, uniprot = clean_uniprot uniprot +:+ tail ∧
          (tail = EmptyString ∨ tail = nl ∨ tail = " " ∨ tail = " " +:+ nl).
Proof.
  unfold clean_uniprot.
  destruct (PyStr.endswith uniprot nl) eqn:Hnl.
  - apply endswith_drop_last in Hnl.
    destruct (PyStr.endswith (PyStr.drop_last uniprot) " ") eqn:Hsp.
    + apply endswith_drop_last in Hsp. exists (" " +:+ nl). split; [|auto].
      rewrite <- append_assoc. by rewrite <- Hsp.
    + exists nl. auto.
  - destruct (PyStr.endswith uniprot " ") eqn:Hsp.
    + apply endswith_drop_last in Hsp. exists " ". auto.
    + exists EmptyString. split; [by rewrite append_empty_r | auto].
Qed.

Lemma endswith_fasta (t : string) (c : ascii) :
  Ascii.eqb "a" c = false ->
  PyStr.endswith (t +:+ ".fasta") (String c EmptyString) = false.
Proof.
  intros H. change ".fasta" with (".fast" +:+ "a").
  by rewrite <- append_assoc, endswith_snoc.
Qed.

(** X3: in the call of [main] the stripping in [blast] finds nothing to
    strip, whatever the line: with a string for [evalue] the command
    names the file of the cleaned line with [.fasta] appended, inside
    [query_folder], and is built from nothing else of the line. *)
Theorem blast_query_of_line (db query_folder blast_path : string) (psiblast : bool)
    (evalue line : string) s :
  let cmd :=
    if psiblast then
      "psiblast -query=" +:+ query_folder +:+ clean_uniprot line +:+ ".fasta"
      +:+ " -db=" +:+ db +:+ " -num_iterations=3"
      +:+ " -outfmt=" +:+ dquote +:+ "6 qacc sacc evalue" +:+ dquote
      +:+ " -evalue=" +:+ evalue +:+ " -comp_based_stats=0"
    else
      "blastp -query=" +:+ query_folder +:+ clean_uniprot line +:+ ".fasta"
      +:+ " -db=" +:+ db
      +:+ " -outfmt=" +:+ dquote +:+ "6 qacc sacc evalue" +:+ dquote
      +:+ " -evalue=" +:+ evalue in
  blast shell db (clean_uniprot line +:+ ".fasta") query_folder blast_path psiblast
        (VStr evalue) s
  = (Ok (shell cmd (world s)).1, after_command shell cmd s).
Proof.
  cbv zeta. rewrite blast_run. cbv zeta. unfold blast_command, nl.
  rewrite endswith_fasta by reflexivity. cbv iota.
  rewrite endswith_fasta by reflexivity. cbv iota.
  destruct psiblast; cbn [negb]; rewrite ?append_assoc; reflexivity.
Qed.


End Cleaning.

(** ** More on [parse_blast_result] *)

Section ParsingMore.

Context {World : Type}.
Implicit Types s : @state World.
Implicit Types d blast_dict : dict.

Lemma with_stdout_nil s : with_stdout [] s = s.
Proof. destruct s. unfold with_stdout. cbn. by rewrite app_nil_r. Qed.

Lemma with_stdout_app (a b : list string) s :
  with_stdout b (with_stdout a s) = with_stdout (a ++ b) s.
Proof. unfold with_stdout. cbn. by rewrite app_assoc. Qed.

(** The loop body, by what the line is. *)
Lemma parse_line_cases d (line : string) s :
  (∃ query subject e_value,
      is_data_line line = true ∧
      extract_fields line = Ok (query, subject, e_value) ∧
      warns line = false ∧
      match PyFloat.float_of_string e_value with
      | Some x => parse_line d line s = (Ok (<[(query, subject) := x]> d), s)
      | None => parse_line d line s = (Raise ValueError, s)
      end) ∨
  (stored_key line = None ∧
   parse_line d line s
   = (Ok d, with_stdout (if warns line then [warning line] else []) s)).
Proof.
  unfold warns, stored_key. destruct (is_data_line line) eqn:Hd.
  - destruct (extract_fields line) as [[[q sj] ev]|e] eqn:Hx.
    + left. exists q, sj, ev. repeat split.
      destruct (PyFloat.float_of_string ev) as [x|] eqn:Hf.
      * eapply parse_line_store; eauto.
      * eapply parse_line_value_error; eauto.
    + right. split; [done|]. erewrite parse_line_index_error by eauto.
      unfold warned. cbn [andb].
      destruct (PyStr.endswith line "CONVERGED!"); cbn [negb];
        [by rewrite with_stdout_nil | reflexivity].
  - right. split; [done|]. rewrite parse_line_skip by done.
    cbn [andb]. by rewrite with_stdout_nil.
Qed.

Lemma parse_lines_other_keys (lines : list string) d0 d s s' (k : string * string) :
  for_fold parse_line lines d0 s = (Ok d, s') ->
  (∀ l, l ∈ lines -> stored_key l ≠ Some k) ->
  d !! k = d0 !! k.
Proof.
  revert d0 s. induction lines as [|l lines IH]; intros d0 s.
  - by intros [= <- <-].
  - rewrite for_fold_cons.
    destruct (parse_line d0 l s) as [[d1|e] s1] eqn:E; [|discriminate].
    intros Hrest Hkeys.
    rewrite (IH d1 s1 Hrest) by (intros l' Hl'; apply Hkeys; by apply elem_of_cons; right).
    apply parse_line_by_key in E as [[_ ->]|(q & sj & ev & y & _ & _ & Hkey & _ & ->)];
      [done|].
    apply lookup_insert_ne. intros <-. eapply Hkeys; [|exact Hkey].
    apply elem_of_cons. by left.
Qed.

(** X5: a key under which no line of the output stores keeps its value,
    or its absence, through [parse_blast_result]. *)
Theorem parse_blast_result_other_keys (blast_result : string) d0 d s s'
    (key : string * string) :
  parse_blast_result blast_result d0 s = (Ok d, s') ->
  (∀ line, line ∈ PyStr.split_char "010" blast_result -> stored_key line ≠ Some key) ->
  d !! key = d0 !! key.
Proof. apply parse_lines_other_keys. Qed.

Lemma parse_lines_raise (lines : list string) d s (e : exn) s' :
  for_fold parse_line lines d s = (Raise e, s') -> e = ValueError.
Proof.
  revert d s. induction lines as [|l lines IH]; intros d s; [discriminate|].
  rewrite for_fold_cons.
  destruct (parse_line d l s) as [[d1|e1] s1] eqn:E; [by apply IH|].
  intros [= <- <-]. eapply parse_line_raises; eauto.
Qed.

Lemma parsed_lines_ok (lines : list string) d d' s s' :
  for_fold parse_line lines d s = (Ok d', s') ->
  ∀ line query subject e_value,
    line ∈ lines -> is_data_line line = true ->
    extract_fields line = Ok (query, subject, e_value) ->
    is_Some (PyFloat.float_of_string e_value).
Proof.
  intros Hok line q sj ev Hin Hd Hx.
  destruct (PyFloat.float_of_string ev) as [x|] eqn:Hf; [eauto|].
  destruct (parse_lines_value_error lines line q sj ev d s Hin Hd Hx Hf) as [s1 H1].
  congruence.
Qed.

(** X6: [parse_blast_result] returns exactly when [float] accepts the
    third field of every line whose fields it extracts, and what it
    raises otherwise is a [ValueError]. *)
Theorem parse_blast_result_returns_iff (blast_result : string) d s :
  ((∃ d' s', parse_blast_result blast_result d s = (Ok d', s'))
   ↔ floats_parse blast_result) ∧
  (∀ e s', parse_blast_result blast_result d s = (Raise e, s') -> e = ValueError).
Proof.
  unfold parse_blast_result, floats_parse. split; [split|].
  - intros (d' & s' & Hok). eapply parsed_lines_ok; eauto.
  - intros H. by apply parse_lines_ok.
  - intros e s'. apply parse_lines_raise.
Qed.

Lemma parse_lines_warnings (lines : list string) d s :
  (∀ line query subject e_value,
     line ∈ lines -> is_data_line line = true ->
     extract_fields line = Ok (query, subject, e_value) ->
     is_Some (PyFloat.float_of_string e_value)) ->
  ∃ d', for_fold parse_line lines d s
        = (Ok d', with_stdout (map warning (filter (fun l => warns l = true) lines)) s).
Proof.
  revert d s. induction lines as [|l lines IH]; intros d s Hall.
  - exists d. cbn. by rewrite with_stdout_nil.
  - assert (Hrest : ∀ line query subject e_value,
               line ∈ lines -> is_data_line line = true ->
               extract_fields line = Ok (query, subject, e_value) ->
               is_Some (PyFloat.float_of_string e_value)).
    { intros line q sj ev Hin. apply Hall. by apply elem_of_cons; right. }
    rewrite for_fold_cons, filter_cons.
    destruct (parse_line_cases d l s) as [(q & sj & ev & Hd & Hx & Hw & Hrun)|[_ Hrun]].
    + destruct (Hall l q sj ev) as [x Hf]; [apply elem_of_cons; by left|done..|].
      rewrite Hf in Hrun. rewrite Hrun, Hw.
      rewrite decide_False by discriminate. apply IH, Hrest.
    + rewrite Hrun. destruct (warns l).
      * rewrite decide_True by done.
        destruct (IH d (with_stdout [warning l] s) Hrest) as [d' ->].
        exists d'. by rewrite with_stdout_app.
      * rewrite decide_False by discriminate. rewrite with_stdout_nil.
        apply IH, Hrest.
Qed.

(** X7: on output that [float] accepts, [parse_blast_result] prints one
    warning for each data line whose fields cannot be extracted and
    that does not end with [CONVERGED!], in the order of the lines, and
    changes nothing else of the state. *)
Theorem parse_blast_result_warnings (blast_result : string) d s :
  floats_parse blast_result ->
  ∃ d', parse_blast_result blast_result d s
        = (Ok d',
           with_stdout (map warning (filter (fun line => warns line = true)
                                            (PyStr.split_char "010" blast_result))) s).
Proof. intros H. by apply parse_lines_warnings. Qed.

(** X8: output in which every line is empty or starts with [#] or [[],
    the empty output among them, leaves the dictionary and the state as
    they are. *)
Theorem parse_blast_result_no_data (blast_result : string) d s :
  (∀ line, line ∈ PyStr.split_char "010" blast_result -> is_data_line line = false) ->
  parse_blast_result blast_result d s = (Ok d, s).
Proof.
  unfold parse_blast_result.
  induction (PyStr.split_char "010" blast_result) as [|l lines IH]; intros H;
    [reflexivity|].
  rewrite for_fold_cons, parse_line_skip by (apply H, elem_of_cons; by left).
  apply IH. intros line Hin. apply H, elem_of_cons. by right.
Qed.

End ParsingMore.

(** ** The characters of a score *)

Section ScoreText.

Import PyFloat.

Lemma all_chars_app (P : ascii -> bool) (a b : string) :
  all_chars P (a +:+ b) = all_chars P a && all_chars P b.
Proof.
  induction a as [|c a IH]; [done|].
  change (String c a +:+ b) with (String c (a +:+ b)).
  cbn [all_chars]. by rewrite IH, andb_assoc.
Qed.

Lemma all_chars_substring (P : ascii -> bool) (n m : nat) (s : string) :
  all_chars P s = true -> all_chars P (substring n m s) = true.
Proof.
  revert n m. induction s as [|c s IH]; intros n m H.
  - by destruct n, m.
  - cbn [all_chars] in H. apply andb_prop in H as [Hc Hs].
    destruct n as [|n]; cbn [substring].
    + destruct m as [|m]; [done|]. cbn [all_chars]. by rewrite Hc, IH.
    + by apply IH.
Qed.

Lemma score_char_digit (d : Z) : 0 <= d < 10 -> score_char (digit_char d) = true.
Proof.
  intros H.
  assert (Hd : d = 0 ∨ d = 1 ∨ d = 2 ∨ d = 3 ∨ d = 4 ∨ d = 5 ∨ d = 6 ∨ d = 7 ∨
               d = 8 ∨ d = 9) by lia.
  repeat (destruct Hd as [->|Hd]; [reflexivity|]). by subst d.
Qed.

Lemma all_chars_digits_of (k : nat) (n : Z) (acc : string) :
  all_chars score_char acc = true ->
  all_chars score_char (digits_of k n acc) = true.
Proof.
  revert n acc. induction k as [|k IH]; intros n acc H; [done|].
  cbn [digits_of]. apply IH. cbn [all_chars].
  rewrite score_char_digit by (apply Z.mod_pos_bound; lia). done.
Qed.

Lemma all_chars_zeros (n : nat) : all_chars score_char (zeros n) = true.
Proof. induction n as [|n IH]; [done|]. cbn [zeros all_chars]. by rewrite IH. Qed.

Lemma all_chars_significant (num den : Z) :
  all_chars score_char (significant num den).1 = true.
Proof.
  unfold significant.
  repeat match goal with
         | |- context [let '(a, b) := ?x in _] => destruct x
         end.
  cbn [fst]. by apply all_chars_digits_of.
Qed.

Lemma all_chars_str_exponent (e : Z) : all_chars score_char (str_exponent e) = true.
Proof.
  unfold str_exponent. cbv zeta. rewrite all_chars_app.
  apply andb_true_intro. split; [by destruct (e <? 0)|].
  destruct (Z.abs e <? 10); [rewrite all_chars_app|];
    by rewrite ?all_chars_digits_of.
Qed.

Lemma all_chars_str_finite (num den : Z) :
  all_chars score_char (str_finite num den) = true.
Proof.
  unfold str_finite. pose proof (all_chars_significant num den) as H.
  destruct (significant num den) as [ds dp]. cbn [fst] in H.
  destruct ((dp <=? -4) || (str_precision - 1 <? dp)).
  - rewrite !all_chars_app, all_chars_substring, all_chars_str_exponent by done.
    pose proof (all_chars_substring score_char 1 (String.length ds - 1) ds H) as Hf.
    destruct (substring 1 (String.length ds - 1) ds); [done|].
    rewrite all_chars_app, Hf. done.
  - destruct (dp <=? 0).
    + by rewrite !all_chars_app, all_chars_zeros, H.
    + destruct (dp <? Z.of_nat (String.length ds)).
      * by rewrite !all_chars_app, !all_chars_substring.
      * by rewrite !all_chars_app, all_chars_zeros, H.
Qed.

(** The text [str] gives a float is made of digits, a point, a sign,
    and the letters of [e], [inf] and [nan]. *)
Lemma all_chars_str (x : float) : all_chars score_char (str x) = true.
Proof.
  destruct x as [sg|sg| |sg m e]; cbn [str].
  - by destruct sg.
  - by destruct sg.
  - done.
  - rewrite all_chars_app. apply andb_true_intro. split; [by destruct sg|].
    destruct (0 <=? e); apply all_chars_str_finite.
Qed.

Lemma all_chars_contains (P : ascii -> bool) (c : ascii) (s : string) :
  P c = false -> all_chars P s = true -> contains c s = false.
Proof.
  intros Hc. induction s as [|x s IH]; [done|]. cbn [all_chars contains].
  intros [Hx Hs]%andb_prop. rewrite IH by done.
  destruct (Ascii.eqb_spec x c) as [->|]; [congruence | done].
Qed.

End ScoreText.

(** ** More on [write_output] *)

Section WritingMore.

Context {World : Type}.
Implicit Types s : @state World.
Implicit Types d blast_dict : dict.

(** X9: [write_output] returns exactly when the output file can be
    opened for writing, and raises the [IOError] of [open] with nothing
    changed otherwise.  When it returns, the output file holds the
    report whatever the name held before; every other file and image,
    the printed lines, the started commands, the world and the figure
    are as they were. *)
Theorem write_output_frame (uniprot_ids : list string) (output_filename : string) d s :
  let run := write_output uniprot_ids output_filename d s in
  (run.1 = Ok tt ↔ can_open output_filename s = true) ∧
  (can_open output_filename s = false -> run = (Raise IOError, s)) ∧
  (∀ name, name ≠ output_filename ->
           files run.2 !! name = files s !! name ∧
           images run.2 !! name = images s !! name) ∧
  world run.2 = world s ∧ popen_log run.2 = popen_log s ∧ stdout run.2 = stdout s ∧
  figure run.2 = figure s ∧ locked run.2 = locked s ∧
  (can_open output_filename s = true ->
   files run.2 !! output_filename
   = Some (concat_lines (map (report_line d) (report_pairs uniprot_ids))) ∧
   images run.2 !! output_filename = None ∧
   ∀ old, write_output uniprot_ids output_filename d (with_file output_filename old s)
          = run).
Proof.
  cbv zeta. destruct (can_open output_filename s) eqn:Hopen.
  - rewrite write_output_run by done. cbn [fst snd].
    split; [done|]. split; [done|]. split.
    { intros name Hne. unfold with_file. cbn.
      by rewrite lookup_insert_ne, lookup_delete_ne. }
    do 5 (split; [done|]). intros _. split; [apply with_file_lookup|]. split.
    { unfold with_file. cbn. apply lookup_delete_eq. }
    intros old. rewrite write_output_run by done. by rewrite with_file_twice.
  - rewrite write_output_raises by done. cbn [fst snd].
    repeat split; try done.
Qed.

(** X10: the report has a line for a pair exactly when the pair is made
    of two different identifiers of the list. *)
Theorem write_output_lines (uniprot_ids : list string) (output_filename : string) d s :
  can_open output_filename s = true ->
  ∃ lines,
    write_output uniprot_ids output_filename d s
    = (Ok tt, with_file output_filename (concat_lines lines) s) ∧
    ∀ line, line ∈ lines ↔
            ∃ id1 id2, id1 ∈ uniprot_ids ∧ id2 ∈ uniprot_ids ∧ id1 ≠ id2 ∧
                       line = report_line d (id1, id2).
Proof.
  intros Hopen. exists (map (report_line d) (report_pairs uniprot_ids)).
  split; [by apply write_output_run|].
  intros line. rewrite list_elem_of_In, in_map_iff. split.
  - intros ([a b] & <- & Hin). apply list_elem_of_In, report_pairs_spec in Hin.
    exists a, b. cbn in Hin. tauto.
  - intros (a & b & Ha & Hb & Hne & ->). exists (a, b). split; [done|].
    apply list_elem_of_In, report_pairs_spec. by cbn.
Qed.

Lemma filter_other (x : string) (l : list string) :
  x ∉ l -> length (filter (fun y => x ≠ y) l) = length l.
Proof.
  induction l as [|y l IH]; [done|]. intros Hnot.
  apply not_elem_of_cons in Hnot as [Hne Hnot].
  rewrite filter_cons, decide_True by done. cbn [length]. by rewrite IH.
Qed.

Lemma filter_other_one (x : string) (l : list string) :
  NoDup l -> x ∈ l -> S (length (filter (fun y => x ≠ y) l)) = length l.
Proof.
  induction l as [|y l IH]; intros Hnd Hin; [by apply elem_of_nil in Hin|].
  apply NoDup_cons in Hnd as [Hy Hnd]. rewrite filter_cons.
  destruct (decide (x = y)) as [->|Hne].
  - rewrite decide_False by (by intros ?). cbn [length]. by rewrite filter_other.
  - rewrite decide_True by done. cbn [length]. f_equal. apply IH; [done|].
    apply elem_of_cons in Hin as [?|?]; [done|done].
Qed.

Lemma filter_row (x : string) (l : list string) :
  length (filter (fun pair : string * string => unique_elements pair = true)
                 (map (fun y => (x, y)) l))
  = length (filter (fun y => x ≠ y) l).
Proof.
  induction l as [|y l IH]; [done|]. cbn [map]. rewrite !filter_cons.
  destruct (decide (x ≠ y)) as [Hne|Heq].
  - rewrite decide_True by (by apply unique_elements_spec). cbn [length].
    by rewrite IH.
  - rewrite decide_False; [done|]. by intros ?%unique_elements_spec.
Qed.

Lemma report_pairs_rows (l l' : list string) :
  NoDup l' -> (∀ x, x ∈ l -> x ∈ l') ->
  (length (filter (fun pair : string * string => unique_elements pair = true)
                  (list_prod l l'))
   = length l * (length l' - 1))%nat.
Proof.
  intros Hnd. induction l as [|x l IH]; intros Hsub; [done|].
  cbn [list_prod]. rewrite filter_app, List.length_app, filter_row, IH
    by (intros y Hy; apply Hsub, elem_of_cons; by right).
  pose proof (filter_other_one x l' Hnd (Hsub x (list_elem_of_here _ _))) as H.
  cbn [length]. lia.
Qed.

Lemma contains_app (c : ascii) (a b : string) :
  contains c (a +:+ b) = contains c a || contains c b.
Proof.
  induction a as [|x a IH]; [done|].
  change (String x a +:+ b) with (String x (a +:+ b)).
  cbn [contains]. by rewrite IH, orb_assoc.
Qed.

(** Neither a newline nor a tab is in the score column. *)
Lemma score_text_contains d (pair : string * string) (c : ascii) :
  score_char c = false -> contains c (score_text d pair) = false.
Proof.
  intros Hc. unfold score_text. destruct (d !! pair) as [x|].
  - eapply all_chars_contains; [exact Hc | apply all_chars_str].
  - by apply (all_chars_contains score_char).
Qed.

(** A line without a newline before its end is the first that reading
    gives. *)
Lemma readlines_line (body rest : string) :
  contains "010" body = false ->
  PyStr.readlines (body +:+ String "010" rest) = (body +:+ nl) :: PyStr.readlines rest.
Proof.
  induction body as [|c body IH]; intros H.
  - change (PyStr.readlines (String "010" rest) = nl :: PyStr.readlines rest).
    reflexivity.
  - cbn [contains] in H. apply orb_false_elim in H as [Hc Hbody].
    change (String c body +:+ String "010" rest)
      with (String c (body +:+ String "010" rest)).
    cbn [PyStr.readlines]. rewrite Hc, IH by done. reflexivity.
Qed.

(** Read back line by line, the report is the lines of its pairs. *)
Lemma readlines_report d (pairs : list (string * string)) :
  (∀ pair, pair ∈ pairs ->
           contains "010" pair.1 = false ∧ contains "010" pair.2 = false) ->
  PyStr.readlines (concat_lines (map (report_line d) pairs))
  = map (report_line d) pairs.
Proof.
  induction pairs as [|pair pairs IH]; intros H; [done|].
  cbn [map concat_lines].
  destruct (H pair) as [H1 H2]; [apply list_elem_of_here|].
  set (body := pair.1 +:+ tab +:+ pair.2 +:+ tab +:+ score_text d pair).
  assert (Hline : report_line d pair = body +:+ nl).
  { unfold report_line, body. by rewrite !append_assoc. }
  rewrite Hline at 1.
  rewrite append_assoc.
  change (nl +:+ concat_lines (map (report_line d) pairs))
    with (String "010" (concat_lines (map (report_line d) pairs))).
  rewrite readlines_line.
  - rewrite IH; [by rewrite <- Hline|].
    intros p Hp. apply H. by apply list_elem_of_further.
  - unfold body. rewrite !contains_app, H1, H2.
    by rewrite score_text_contains.
Qed.

(** X11: for a list of [n] identifiers without repetition and without
    a newline in them, the file [write_output] leaves has
    [n * (n - 1)] lines, each the line of a pair of two different
    identifiers, in the order of the cross product. *)
Theorem write_output_line_count (uniprot_ids : list string) (output_filename : string)
    d s :
  can_open output_filename s = true ->
  NoDup uniprot_ids ->
  (∀ id, id ∈ uniprot_ids -> contains "010" id = false) ->
  ∃ text,
    files (write_output uniprot_ids output_filename d s).2 !! output_filename
    = Some text ∧
    PyStr.readlines text = map (report_line d) (report_pairs uniprot_ids) ∧
    length (PyStr.readlines text)
    = (length uniprot_ids * (length uniprot_ids - 1))%nat.
Proof.
  intros Hopen Hnd Hnl. eexists. split.
  { rewrite write_output_run by done. apply with_file_lookup. }
  fold (report_pairs uniprot_ids).
  assert (Hread : PyStr.readlines
                    (concat_lines (map (report_line d) (report_pairs uniprot_ids)))
                  = map (report_line d) (report_pairs uniprot_ids)).
  { apply readlines_report. intros pair (H1 & H2 & _)%report_pairs_spec. auto. }
  split; [exact Hread|].
  rewrite Hread, List.length_map. unfold report_pairs. by apply report_pairs_rows.
Qed.

End WritingMore.

(** ** More on [plot_evalue_distribution] *)

Section PlottingMore.

Context {World : Type}.
Variable log10 : float -> option float.
Variable mean : list float -> float.
Variable hist_rejects : list float -> bool.
Variable image_file : string -> option string.
Implicit Types s : @state World.
Implicit Types d blast_dict : dict.
Implicit Types l : list float.

Lemma nonzero_from_nil (i : nat) l :
  nonzero_from i l = [] -> Forall (fun x => PyFloat.nonzero x = false) l.
Proof.
  revert i. induction l as [|y l IH]; intros i; [constructor|].
  cbn. destruct (PyFloat.nonzero y) eqn:Hy; [discriminate|].
  intros H. constructor; [done | by eapply IH].
Qed.

(** The logarithms are taken before anything is drawn, all of them or
    none. *)
Lemma map_list_mapM (f : float -> option float) l s :
  map_list (fun x => match f x with
                     | Some y => mret y
                     | None => raise ValueError
                     end) l s
  = match mapM f l with
    | Some logs => (Ok logs, s)
    | None => (Raise ValueError, s)
    end.
Proof.
  induction l as [|x l IH]; [reflexivity|].
  cbn [map_list mapM]. rewrite bind_run.
  destruct (f x) as [y|]; unfold_ret; [|reflexivity].
  rewrite bind_run, IH. cbn. by destruct (mapM f l).
Qed.

Lemma with_figure_nil s : with_figure [] s = s.
Proof. destruct s. unfold with_figure. cbn. by rewrite app_nil_r. Qed.

(** The function, by what the dictionary holds. *)
Lemma plot_cases d (png_filename : string) (evalue : float) s :
  (Forall (fun x => PyFloat.nonzero x = false) (values d) ∧
   plot_evalue_distribution log10 mean hist_rejects image_file d png_filename evalue s
   = (Raise IndexError, s)) ∨
  (∃ m, m ∈ values d ∧ PyFloat.nonzero m = true ∧
        plot_evalue_distribution log10 mean hist_rejects image_file d png_filename evalue s
        = match mapM (fun x => log10 (PyFloat.add x (PyFloat.div m (PyFloat.of_Z 1000))))
                     (values d) with
          | None => (Raise ValueError, s)
          | Some logs =>
              if hist_rejects logs then
                (Raise ValueError,
                 with_figure
                   [Title ("Average log(e-value):" +:+ PyFloat.str (mean logs))] s)
              else
                match image_file png_filename with
                | None => (Raise ValueError, with_figure (histogram mean logs) s)
                | Some name =>
                    if can_open name s
                    then (Ok (count_lower (sorted (values d)) evalue),
                          with_image name (histogram mean logs) s)
                    else (Raise IOError, with_figure (histogram mean logs) s)
                end
          end).
Proof.
  destruct (index (nonzero_from 0 (sorted (values d))) 0) as [j|e] eqn:Hj.
  - right. destruct (nonzero_from_first _ _ _ Hj) as (m & Hm & _ & Hnz & _).
    rewrite Nat.sub_0_r in Hm. exists m. split.
    { rewrite <- (sorted_perm (values d)). eapply list_elem_of_lookup_2; eauto. }
    split; [done|].
    assert (Hidx : index (sorted (values d)) j = Ok m) by (unfold index; by rewrite Hm).
    destruct (mapM _ (values d)) as [logs|] eqn:Hlogs.
    + apply mapM_Some in Hlogs. eapply plot_evalue_distribution_run; eauto.
    + unfold plot_evalue_distribution.
      rewrite bind_run, Hj. unfold lift at 1. rewrite bind_run, Hidx. unfold lift at 1.
      rewrite bind_run, map_list_mapM, Hlogs. reflexivity.
  - left. assert (Hnil : nonzero_from 0 (sorted (values d)) = []).
    { unfold index in Hj. by destruct (nonzero_from 0 (sorted (values d))). }
    assert (Hall : Forall (fun x => PyFloat.nonzero x = false) (values d)).
    { rewrite <- (sorted_perm (values d)). by eapply nonzero_from_nil. }
    split; [done|]. by apply plot_evalue_distribution_all_zero.
Qed.

(** What the function ends with: an error and a figure that may have
    gained something, or the count and the image. *)
Lemma plot_ends d (png_filename : string) (evalue : float) s :
  let run := plot_evalue_distribution log10 mean hist_rejects image_file d
                                      png_filename evalue s in
  (∃ e drawn, run = (Raise e, with_figure drawn s) ∧
              (e = IndexError ∧ drawn = [] ∨ e = ValueError ∨ e = IOError)) ∨
  (∃ logs name,
      image_file png_filename = Some name ∧ can_open name s = true ∧
      hist_rejects logs = false ∧ length logs = length (values d) ∧
      run = (Ok (count_lower (sorted (values d)) evalue),
             with_image name (histogram mean logs) s)).
Proof.
  cbv zeta.
  destruct (plot_cases d png_filename evalue s) as [[_ ->]|(m & _ & _ & ->)].
  { left. exists IndexError, []. rewrite with_figure_nil. auto. }
  destruct (mapM _ (values d)) as [logs|] eqn:Hlogs.
  2:{ left. exists ValueError, []. rewrite with_figure_nil. auto. }
  destruct (hist_rejects logs) eqn:Hhist; [left; eauto 6|].
  destruct (image_file png_filename) as [name|] eqn:Hname; [|left; eauto 6].
  destruct (can_open name s) eqn:Hopen; [|left; eauto 6].
  right. exists logs, name. apply length_mapM in Hlogs. auto.
Qed.

(** The function leaves alone every file but the one it saves the
    image in. *)
Lemma plot_other_files d (png_filename : string) (evalue : float) (name : string) s :
  image_file png_filename ≠ Some name ->
  files (plot_evalue_distribution log10 mean hist_rejects image_file d
                                  png_filename evalue s).2 !! name
  = files s !! name.
Proof.
  intros Hne.
  destruct (plot_ends d png_filename evalue s)
    as [(e & drawn & -> & _)|(logs & target & Htarget & _ & _ & _ & ->)]; [done|].
  unfold with_image. cbn. apply lookup_delete_ne. congruence.
Qed.

(** X12: [plot_evalue_distribution] raises [IndexError] exactly when no
    stored E-value is non-zero, the empty dictionary included. *)
Theorem plot_index_error_iff d (png_filename : string) (evalue : float) s :
  (plot_evalue_distribution log10 mean hist_rejects image_file d png_filename evalue s).1 = Raise IndexError
  ↔ Forall (fun x => PyFloat.nonzero x = false) (values d).
Proof.
  destruct (plot_cases d png_filename evalue s) as [[Hall ->]|(m & Hin & Hnz & Hrun)].
  - done.
  - split.
    + rewrite Hrun. destruct (mapM _ (values d)) as [logs|]; [|discriminate].
      destruct (hist_rejects logs); [discriminate|].
      destruct (image_file png_filename) as [name|]; [|discriminate].
      destruct (can_open name s); discriminate.
    + intros Hall. rewrite Forall_forall in Hall. rewrite (Hall m Hin) in Hnz.
      discriminate.
Qed.

(** X13: the function writes on returning only.  When it raises, the
    error is an [IndexError], a [ValueError] or an [IOError], no file is
    written and no image saved: the figure alone may have gained what
    was drawn before the error, nothing on an [IndexError].  When it
    returns, the histogram has one logarithm for each stored value,
    [pylab.hist] took them, the image is saved in the file
    [pylab.savefig] writes for [png_filename], and the count the
    function ends with is the number of stored values below the
    threshold. *)
Theorem plot_saves_or_raises d (png_filename : string) (evalue : float) s :
  let run := plot_evalue_distribution log10 mean hist_rejects image_file d
                                      png_filename evalue s in
  (∃ e drawn,
      run.1 = Raise e ∧ (e = IndexError ∧ drawn = [] ∨ e = ValueError ∨ e = IOError) ∧
      run.2 = with_figure drawn s ∧
      files run.2 = files s ∧ images run.2 = images s) ∨
  (∃ logs name,
      image_file png_filename = Some name ∧ can_open name s = true ∧
      hist_rejects logs = false ∧
      run.1 = Ok (Z.of_nat (length (filter (fun x => PyFloat.lt x evalue = true)
                                           (values d)))) ∧
      length logs = length (values d) ∧
      run.2 = with_image name (histogram mean logs) s).
Proof.
  cbv zeta.
  destruct (plot_ends d png_filename evalue s)
    as [(e & drawn & -> & He)|(logs & name & Hname & Hopen & Hhist & Hlen & ->)].
  - left. exists e, drawn. cbn [fst snd]. by repeat split.
  - right. exists logs, name. rewrite count_lower_sorted. by repeat split.
Qed.

(** X14: when some stored E-value is not zero, [math.log10] is defined
    on every stored value shifted by a thousandth of any non-zero
    stored value, [pylab.hist] takes the logarithms and [pylab.savefig]
    can write its file, the function returns, and the count it ends
    with is the number of stored values strictly below the
    threshold. *)
Theorem plot_returns_count d (png_filename name : string) (evalue : float) s :
  (∃ x, x ∈ values d ∧ PyFloat.nonzero x = true) ->
  (∀ x m, x ∈ values d -> m ∈ values d -> PyFloat.nonzero m = true ->
          is_Some (log10 (PyFloat.add x (PyFloat.div m (PyFloat.of_Z 1000))))) ->
  (∀ m logs, m ∈ values d -> PyFloat.nonzero m = true ->
             Forall2 (fun x y =>
                        log10 (PyFloat.add x (PyFloat.div m (PyFloat.of_Z 1000))) = Some y)
                     (values d) logs ->
             hist_rejects logs = false) ->
  image_file png_filename = Some name ->
  can_open name s = true ->
  ∃ logs,
    plot_evalue_distribution log10 mean hist_rejects image_file d png_filename evalue s
    = (Ok (Z.of_nat (length (filter (fun x => PyFloat.lt x evalue = true) (values d)))),
       with_image name (histogram mean logs) s).
Proof.
  intros (x & Hx & Hxnz) Hlog Hhist Hname Hopen.
  destruct (plot_cases d png_filename evalue s) as [[Hall _]|(m & Hin & Hnz & Hrun)].
  - rewrite Forall_forall in Hall. rewrite (Hall x Hx) in Hxnz. discriminate.
  - destruct (mapM _ (values d)) as [logs|] eqn:Hlogs.
    + exists logs. apply mapM_Some in Hlogs.
      rewrite Hrun, (Hhist m logs Hin Hnz Hlogs), Hname, Hopen.
      by rewrite count_lower_sorted.
    + exfalso. apply mapM_None in Hlogs.
      apply Exists_exists in Hlogs as (y & Hy & Hnone).
      destruct (Hlog y m Hy Hin Hnz) as [z Hz]. congruence.
Qed.

End PlottingMore.

(** ** More on [main] *)

Section RunningMore.

Context {World : Type}.
Variable shell : string -> World -> string * World.
Variable log10 : float -> option float.
Variable mean : list float -> float.
Variable hist_rejects : list float -> bool.
Variable image_file : string -> option string.
Implicit Types s : @state World.
Implicit Types d blast_dict : dict.

(** X15: with an [evalue] that is not a string, the default among them,
    and an identifier file that has a line, [main] raises [TypeError]
    at the first line: no command is started, no file is written and
    nothing is drawn. *)
Theorem main_type_error (uniprot_id_list query_folder db : string) (psiblast : bool)
    (output_filename output_png text : string) (evalue : pyval) s :
  files s !! uniprot_id_list = Some text ->
  text ≠ EmptyString ->
  (∀ t, evalue ≠ VStr t) ->
  main shell log10 mean hist_rejects image_file uniprot_id_list query_folder db psiblast
       output_filename output_png evalue s
  = (Raise TypeError, s).
Proof.
  intros Hfile Htext Hne. unfold main, main_loop.
  rewrite bind_run. unfold open_read. rewrite Hfile. rewrite bind_run.
  assert (Hlines : ∃ line lines, PyStr.readlines text = line :: lines).
  { destruct text as [|c text]; [done|]. cbn.
    destruct (Ascii.eqb c "010"); [eauto|]. destruct (PyStr.readlines text); eauto. }
  destruct Hlines as (line & lines & ->).
  rewrite for_fold_cons. unfold main_step. rewrite bind_run.
  assert (Hblast : ∀ q, blast shell db q query_folder output_filename psiblast evalue s
                        = (Raise TypeError, s)).
  { intros q. unfold blast.
    destruct evalue as [t| | | |]; [by destruct (Hne t)|..];
      destruct psiblast; reflexivity. }
  by rewrite Hblast.
Qed.

(** X16: on an empty identifier file [main] starts no command, whatever
    [evalue] is, leaves an empty report in the output file it opens and
    raises the [IndexError] of the plot. *)
Theorem main_empty_file (uniprot_id_list query_folder db : string) (psiblast : bool)
    (output_filename output_png : string) (evalue : pyval) s :
  files s !! uniprot_id_list = Some EmptyString ->
  can_open output_filename s = true ->
  main shell log10 mean hist_rejects image_file uniprot_id_list query_folder db psiblast
       output_filename output_png evalue s
  = (Raise IndexError, with_file output_filename EmptyString s).
Proof.
  intros Hfile Hopen. unfold main, main_loop.
  rewrite bind_run. unfold open_read. rewrite Hfile. rewrite bind_run.
  cbn [PyStr.readlines for_fold]. unfold_ret.
  rewrite bind_run, write_output_run by done. cbn [list_prod filter map concat_lines].
  rewrite bind_run, plot_evalue_distribution_all_zero; [reflexivity|].
  unfold values. rewrite map_to_list_empty. constructor.
Qed.

Lemma main_loop_ids (query_folder db : string) (psiblast : bool)
    (output_filename evalue : string) (lines ids0 ids : list string) d0 d s s' :
  for_fold (main_step shell query_folder db psiblast output_filename (VStr evalue))
           lines (ids0, d0) s = (Ok (ids, d), s') ->
  ids = ids0 ++ map clean_uniprot lines.
Proof.
  revert ids0 d0 s. induction lines as [|line lines IH]; intros ids0 d0 s.
  - intros [= <- <- <-]. by rewrite app_nil_r.
  - rewrite for_fold_cons, main_step_run. cbv zeta.
    destruct (parse_blast_result _ d0 _) as [[d1|e] s1]; [|discriminate].
    intros ->%IH. by rewrite <- app_assoc.
Qed.

(** The dictionary the loop of [parse_blast_result] returns. *)
Lemma parse_lines_store (lines : list string) d d' s s' :
  for_fold parse_line lines d s = (Ok d', s') -> d' = foldl store d lines.
Proof.
  revert d s. induction lines as [|l lines IH]; intros d s.
  - by intros [= <- <-].
  - rewrite for_fold_cons.
    destruct (parse_line d l s) as [[d1|e] s1] eqn:E; [|discriminate].
    intros ->%IH. cbn [foldl]. f_equal.
    apply parse_line_by_key in E
      as [[Hkey ->]|(q & sj & ev & y & Hd & Hext & Hkey & Hf & ->)].
    + unfold stored_key in Hkey. unfold store.
      destruct (is_data_line l); [|done].
      by destruct (extract_fields l) as [[[q sj] ev]|e].
    + unfold store. by rewrite Hd, Hext, Hf.
Qed.

(** The dictionary the loop of [main] returns. *)
Lemma main_loop_parsed (query_folder db : string) (psiblast : bool)
    (output_filename evalue : string) (lines ids0 ids : list string) d0 d s s' :
  for_fold (main_step shell query_folder db psiblast output_filename (VStr evalue))
           lines (ids0, d0) s = (Ok (ids, d), s') ->
  d = parsed d0 (outputs shell (map (blast_command query_folder db psiblast evalue) lines)
                         (world s)).
Proof.
  revert ids0 d0 s. induction lines as [|line lines IH]; intros ids0 d0 s.
  - by intros [= <- <- <-].
  - rewrite for_fold_cons, main_step_run. cbv zeta.
    set (cmd := blast_command query_folder db psiblast evalue line).
    destruct (keeps_log_parse_blast_result (shell cmd (world s)).1 d0
                (after_command shell cmd s)) as (_ & Hworld & _).
    destruct (parse_blast_result _ d0 _) as [[d1|e] s1] eqn:E; [|discriminate].
    intros ->%IH. cbn in Hworld. rewrite Hworld.
    apply parse_lines_store in E. subst d1. reflexivity.
Qed.

(** X17: with a string for [evalue], outputs of the tool that [float]
    accepts, an output file that can be opened and an image that goes
    to another file, [main] leaves in the output file the report over
    the cleaned lines of the identifier file, in their order, with the
    scores of the dictionary the outputs parse to, whether the plot
    then succeeds or raises. *)
Theorem main_report (uniprot_id_list query_folder db : string) (psiblast : bool)
    (output_filename output_png evalue text : string) s :
  files s !! uniprot_id_list = Some text ->
  can_open output_filename s = true ->
  image_file output_png ≠ Some output_filename ->
  let lines := PyStr.readlines text in
  let outs := outputs shell (map (blast_command query_folder db psiblast evalue) lines)
                      (world s) in
  Forall floats_parse outs ->
  let run := main shell log10 mean hist_rejects image_file uniprot_id_list query_folder db psiblast
                  output_filename output_png (VStr evalue) s in
  files run.2 !! output_filename
  = Some (concat_lines
            (map (report_line (parsed ∅ outs))
                 (report_pairs (map clean_uniprot lines)))).
Proof.
  intros Hfile Hopen Hpng. cbv zeta. intros Hparse. unfold main, main_loop.
  rewrite bind_run. unfold open_read. rewrite Hfile. rewrite bind_run.
  destruct (main_loop_log shell query_folder db psiblast output_filename evalue
              (PyStr.readlines text) ([], ∅) s) as (_ & _ & Hlocked & Hend).
  cbv zeta in Hlocked, Hend.
  rewrite (proj2 (forallb_forall _ _)) in Hend.
  2:{ intros out Hin. apply parses_spec. rewrite Forall_forall in Hparse.
      by apply Hparse, list_elem_of_In. }
  destruct Hend as [[ids d] Hrun].
  destruct (for_fold _ (PyStr.readlines text) ([], ∅) s) as [r s1] eqn:Hloop.
  cbn [fst snd] in Hrun, Hlocked. subst r.
  pose proof (main_loop_ids _ _ _ _ _ _ _ _ _ _ _ _ Hloop) as Hids.
  apply main_loop_parsed in Hloop. cbn [app] in Hids. subst ids d.
  assert (Hopen1 : can_open output_filename s1 = true).
  { unfold can_open in *. by rewrite Hlocked. }
  rewrite bind_run, write_output_run, bind_run by done.
  set (s2 := with_file output_filename _ s1).
  pose proof (plot_other_files log10 mean hist_rejects image_file
                (parsed ∅ (outputs shell
                   (map (blast_command query_folder db psiblast evalue)
                        (PyStr.readlines text)) (world s)))
                output_png plot_default_evalue output_filename s2 Hpng) as Hkeep.
  destruct (plot_evalue_distribution log10 mean hist_rejects image_file _ output_png
              plot_default_evalue s2)
    as [[n|e] s3]; cbn [fst snd] in *; unfold_ret; cbn [fst snd];
    rewrite Hkeep; apply with_file_lookup.
Qed.

End RunningMore.

(** ** Keys of the dictionary and fields of the report *)

Section KeysAndFields.

Context {World : Type}.
Implicit Types s : @state World.
Implicit Types d blast_dict : dict.

Lemma parse_lines_keys (lines : list string) d0 d s s' (k : string * string) :
  for_fold parse_line lines d0 s = (Ok d, s') ->
  is_Some (d !! k)
  ↔ is_Some (d0 !! k) ∨ ∃ line, line ∈ lines ∧ stored_key line = Some k.
Proof.
  revert d0 s. induction lines as [|l lines IH]; intros d0 s.
  - intros [= <- <-]. split; [auto|]. intros [?|(line & []%elem_of_nil & _)]; done.
  - rewrite for_fold_cons.
    destruct (parse_line d0 l s) as [[d1|e] s1] eqn:E; [|discriminate].
    intros Hrest. rewrite (IH d1 s1 Hrest).
    apply parse_line_by_key in E
      as [[Hkey ->]|(q & sj & ev & y & _ & _ & Hkey & _ & ->)].
    + split.
      * intros [?|(line & Hin & Hl)]; [by left|]. right. exists line.
        split; [by apply elem_of_cons; right | done].
      * intros [?|(line & [->|Hin]%elem_of_cons & Hl)]; [by left|congruence|].
        right. by exists line.
    + rewrite lookup_insert_is_Some. split.
      * intros [[<-|[_ ?]]|(line & Hin & Hl)].
        -- right. exists l. split; [apply elem_of_cons; by left | done].
        -- by left.
        -- right. exists line. split; [by apply elem_of_cons; right | done].
      * intros [?|(line & [->|Hin]%elem_of_cons & Hl)].
        -- destruct (decide ((q, sj) = k)); [left; by left | left; right; done].
        -- left. left. congruence.
        -- right. by exists line.
Qed.

(** X18: the keys of the dictionary [parse_blast_result] returns are
    the keys it was given and the (query, subject) pairs of the lines
    that store, and no others; no key is ever removed. *)
Theorem parse_blast_result_keys (blast_result : string) d0 d s s'
    (key : string * string) :
  parse_blast_result blast_result d0 s = (Ok d, s') ->
  is_Some (d !! key)
  ↔ is_Some (d0 !! key) ∨
    ∃ line, line ∈ PyStr.split_char "010" blast_result ∧ stored_key line = Some key.
Proof. apply parse_lines_keys. Qed.

Lemma split_char_not_nil (c : ascii) (a : string) : PyStr.split_char c a ≠ [].
Proof.
  destruct a as [|x a]; [discriminate|]. cbn [PyStr.split_char].
  destruct (Ascii.eqb x c); [discriminate|].
  by destruct (PyStr.split_char c a).
Qed.

(** A text without the separator is the one piece of its split. *)
Lemma split_char_whole (c : ascii) (a : string) :
  contains c a = false -> PyStr.split_char c a = [a].
Proof.
  induction a as [|x a IH]; [done|]. cbn [contains PyStr.split_char].
  intros [Hx Ha]%orb_false_elim. by rewrite Hx, IH.
Qed.

(** A text without the separator in front of a separator is the first
    piece of the split. *)
Lemma split_char_first (c : ascii) (a rest : string) :
  PyStr.split_char c a = [a] ->
  PyStr.split_char c (a +:+ String c rest) = a :: PyStr.split_char c rest.
Proof.
  induction a as [|x a IH].
  - intros _. change (PyStr.split_char c (String c rest)
                      = EmptyString :: PyStr.split_char c rest).
    cbn [PyStr.split_char]. by rewrite Ascii.eqb_refl.
  - change (String x a +:+ String c rest) with (String x (a +:+ String c rest)).
    cbn [PyStr.split_char]. destruct (Ascii.eqb x c); [discriminate|].
    destruct (PyStr.split_char c a) as [|w ws] eqn:Ha;
      [by destruct (split_char_not_nil c a)|].
    intros [= -> ->]. by rewrite IH.
Qed.

(** The three fields of a line of the report. *)
Lemma report_line_split d (id1 id2 : string) :
  contains "009" id1 = false -> contains "009" id2 = false ->
  PyStr.split_char "009" (report_line d (id1, id2))
  = [id1; id2; score_text d (id1, id2) +:+ nl].
Proof.
  intros H1 H2.
  change (report_line d (id1, id2))
    with (id1 +:+ String "009"
            (id2 +:+ String "009" (score_text d (id1, id2) +:+ nl))).
  rewrite (split_char_first _ _ _ (split_char_whole _ _ H1)),
          (split_char_first _ _ _ (split_char_whole _ _ H2)).
  rewrite split_char_whole; [done|].
  by rewrite contains_app, score_text_contains.
Qed.

(** X19: when no identifier of the list holds a tab or a newline, every
    line of the file [write_output] leaves splits at the tabs into
    three fields: an identifier of the list, another one, and the score
    of the pair with the newline, which is [NA] for a pair that is no
    key. *)
Theorem report_line_fields (uniprot_ids : list string) (output_filename : string) d s :
  can_open output_filename s = true ->
  (∀ id, id ∈ uniprot_ids -> contains "010" id = false ∧ contains "009" id = false) ->
  ∃ text,
    files (write_output uniprot_ids output_filename d s).2 !! output_filename
    = Some text ∧
    ∀ line, line ∈ PyStr.readlines text ->
      ∃ id1 id2,
        id1 ∈ uniprot_ids ∧ id2 ∈ uniprot_ids ∧ id1 ≠ id2 ∧
        PyStr.split_char "009" line = [id1; id2; score_text d (id1, id2) +:+ nl] ∧
        (d !! (id1, id2) = None ->
         PyStr.split_char "009" line = [id1; id2; "NA" +:+ nl]).
Proof.
  intros Hopen Hids. eexists. split.
  { rewrite write_output_run by done. apply with_file_lookup. }
  fold (report_pairs uniprot_ids). rewrite readlines_report.
  2:{ intros pair (H1 & H2 & _)%report_pairs_spec.
      split; [by apply Hids | by apply Hids]. }
  intros line Hin. apply list_elem_of_In, in_map_iff in Hin as ([id1 id2] & <- & Hin).
  apply list_elem_of_In, report_pairs_spec in Hin as (H1 & H2 & Hne). cbn in H1, H2, Hne.
  exists id1, id2. repeat split; try done.
  - apply report_line_split; by apply Hids.
  - intros Hnone. rewrite report_line_split by (by apply Hids).
    unfold score_text. by rewrite Hnone.
Qed.

End KeysAndFields.

(** ** The further statements at the sample run *)

Section MoreExamples.

Import Sample.

(** [float] accepts the E-value column of the sample output. *)
Lemma sample_hits_parse : floats_parse hits.
Proof.
  intros line q sj ev Hin Hd Hx. vm_compute in Hin.
  repeat (apply elem_of_cons in Hin as [->|Hin]);
    [| | | |by apply elem_of_nil in Hin];
    vm_compute in Hd, Hx; try discriminate.
  injection Hx as <- <- <-. vm_compute. eauto.
Qed.

Lemma clean_uniprot_line_end_witness :
  clean_uniprot ("P12345" +:+ nl) = "P12345" ∧
  clean_uniprot ("P12345" +:+ " " +:+ nl) = "P12345" ∧
  (PyStr.endswith "P12345" nl = false -> clean_uniprot "P12345" = "P12345").
Proof. apply (clean_uniprot_line_end "P12345"). reflexivity. Defined.

Lemma parse_blast_result_other_keys_witness :
  (<[("A", "B") := ten]> {[ ("C", "D") := ten ]} : dict) !! ("C", "D")
  = ({[ ("C", "D") := ten ]} : dict) !! ("C", "D").
Proof.
  apply (parse_blast_result_other_keys hits {[ ("C", "D") := ten ]}
           (<[("A", "B") := ten]> {[ ("C", "D") := ten ]}) idle (warned "no hits" idle)
           ("C", "D")).
  - vm_compute; reflexivity.
  - intros line Hin. vm_compute in Hin.
    repeat (apply elem_of_cons in Hin as [->|Hin]);
      [| | | |by apply elem_of_nil in Hin]; vm_compute; discriminate.
Defined.

Lemma parse_blast_result_warnings_witness :
  ∃ d', parse_blast_result hits one_hit idle
        = (Ok d',
           with_stdout (map warning (filter (fun line => warns line = true)
                                            (PyStr.split_char "010" hits))) idle).
Proof. apply (parse_blast_result_warnings hits one_hit idle), sample_hits_parse. Defined.

Lemma parse_blast_result_no_data_witness :
  parse_blast_result ("# BLASTP 2.2" +:+ nl +:+ nl +:+ "[blastp] warning") one_hit idle
  = (Ok one_hit, idle).
Proof.
  apply (parse_blast_result_no_data
           ("# BLASTP 2.2" +:+ nl +:+ nl +:+ "[blastp] warning") one_hit idle).
  intros line Hin. vm_compute in Hin.
  repeat (apply elem_of_cons in Hin as [->|Hin]);
    [| | |by apply elem_of_nil in Hin]; reflexivity.
Defined.

(** A state in which the report cannot be opened: its directory is
    missing. *)
Example write_output_locked :
  write_output ["A"; "B"] "missing/out" one_hit
               (State 0%nat [] [] ∅ [] ∅ {[ "missing/out" ]})
  = (Raise IOError, State 0%nat [] [] ∅ [] ∅ {[ "missing/out" ]}) ∧
  write_output ["A"; "B"] "" one_hit idle = (Raise IOError, idle).
Proof. split; vm_compute; reflexivity. Qed.

Lemma write_output_lines_witness :
  ∃ lines,
    write_output ["A"; "B"] "out" one_hit idle
    = (Ok tt, with_file "out" (concat_lines lines) idle) ∧
    ∀ line, line ∈ lines ↔
            ∃ id1 id2, id1 ∈ ["A"; "B"] ∧ id2 ∈ ["A"; "B"] ∧ id1 ≠ id2 ∧
                       line = report_line one_hit (id1, id2).
Proof.
  apply (write_output_lines ["A"; "B"] "out" one_hit idle).
  vm_compute; reflexivity.
Defined.

Lemma write_output_line_count_witness :
  ∃ text,
    files (write_output ["A"; "B"; "C"] "out" one_hit idle).2 !! "out" = Some text ∧
    PyStr.readlines text = map (report_line one_hit) (report_pairs ["A"; "B"; "C"]) ∧
    length (PyStr.readlines text) = (3 * (3 - 1))%nat.
Proof.
  apply (write_output_line_count ["A"; "B"; "C"] "out" one_hit idle).
  - vm_compute; reflexivity.
  - apply (bool_decide_unpack _). vm_compute. reflexivity.
  - intros id Hin.
    repeat (apply elem_of_cons in Hin as [->|Hin]);
      [reflexivity.. | by apply elem_of_nil in Hin].
Defined.

(** An infinite E-value: the title is drawn, [pylab.hist] raises and no
    image is saved. *)
Example plot_infinity_raises :
  plot_evalue_distribution log10 mean hist_rejects image_file
    {[ ("A", "B") := S754_infinity false ]} "plot.png" plot_default_evalue idle
  = (Raise ValueError, with_figure [Title "Average log(e-value):0.0"] idle).
Proof. vm_compute; reflexivity. Qed.

(** An image that goes to the file of the report takes its place. *)
Example plot_over_report :
  let run := main shell log10 mean hist_rejects image_file "ids" "q/" "db" false
                  "out.png" "out.png" (VStr "10") with_ids in
  run.1 = Ok tt ∧ files run.2 !! "out.png" = None ∧
  is_Some (images run.2 !! "out.png").
Proof. cbv zeta. repeat split; vm_compute; eauto. Qed.

Lemma plot_returns_count_witness :
  ∃ logs,
    plot_evalue_distribution log10 mean hist_rejects image_file one_hit "plot.png"
                             plot_default_evalue idle
    = (Ok (Z.of_nat (length (filter (fun x => PyFloat.lt x plot_default_evalue = true)
                                    (values one_hit)))),
       with_image "plot.png" (histogram mean logs) idle).
Proof.
  assert (H : values one_hit = [ten]) by (vm_compute; reflexivity).
  apply (plot_returns_count log10 mean hist_rejects image_file one_hit "plot.png"
           "plot.png" plot_default_evalue idle).
  - exists ten. rewrite H. split; [apply list_elem_of_here | vm_compute; reflexivity].
  - intros x m _ _ _. unfold log10. eauto.
  - intros m logs. rewrite H. intros ->%list_elem_of_singleton _ HF.
    apply Forall2_cons_inv_l in HF as (y & logs' & Hy & ->%Forall2_nil_inv_l & ->).
    unfold log10 in Hy. injection Hy as <-. vm_compute; reflexivity.
  - vm_compute; reflexivity.
  - vm_compute; reflexivity.
Defined.

Lemma main_type_error_witness :
  main shell log10 mean hist_rejects image_file "ids" "q/" "db" false "out" "plot.png" main_default_evalue
       with_ids
  = (Raise TypeError, with_ids).
Proof.
  apply (main_type_error shell log10 mean hist_rejects image_file "ids" "q/" "db" false "out" "plot.png"
           ("A" +:+ nl +:+ "B" +:+ nl) main_default_evalue with_ids).
  - vm_compute; reflexivity.
  - discriminate.
  - intros t. discriminate.
Defined.

Lemma main_empty_file_witness :
  main shell log10 mean hist_rejects image_file "ids" "q/" "db" true "out" "plot.png" main_default_evalue
       (State 0%nat [] [] {[ "ids" := EmptyString ]} [] ∅ ∅)
  = (Raise IndexError,
     with_file "out" EmptyString (State 0%nat [] [] {[ "ids" := EmptyString ]} [] ∅ ∅)).
Proof.
  apply (main_empty_file shell log10 mean hist_rejects image_file "ids" "q/" "db" true "out" "plot.png"
           main_default_evalue (State 0%nat [] [] {[ "ids" := EmptyString ]} [] ∅ ∅)).
  - vm_compute; reflexivity.
  - vm_compute; reflexivity.
Defined.

Lemma main_report_witness :
  let lines := PyStr.readlines ("A" +:+ nl +:+ "B" +:+ nl) in
  let outs := outputs shell (map (blast_command "q/" "db" false "10") lines)
                      (world with_ids) in
  files (main shell log10 mean hist_rejects image_file "ids" "q/" "db" false "out"
              "plot.png" (VStr "10") with_ids).2 !! "out"
  = Some (concat_lines
            (map (report_line (parsed ∅ outs))
                 (report_pairs (map clean_uniprot lines)))).
Proof.
  apply (main_report shell log10 mean hist_rejects image_file "ids" "q/" "db" false "out"
           "plot.png" "10" ("A" +:+ nl +:+ "B" +:+ nl) with_ids).
  - vm_compute; reflexivity.
  - vm_compute; reflexivity.
  - vm_compute. discriminate.
  - repeat constructor; apply sample_hits_parse.
Defined.

Lemma parse_blast_result_keys_witness :
  is_Some (one_hit !! ("A", "B"))
  ↔ is_Some ((∅ : dict) !! ("A", "B")) ∨
    ∃ line, line ∈ PyStr.split_char "010" hits ∧ stored_key line = Some ("A", "B").
Proof.
  apply (parse_blast_result_keys hits ∅ one_hit idle (warned "no hits" idle) ("A", "B")).
  vm_compute; reflexivity.
Defined.

Lemma report_line_fields_witness :
  ∃ text,
    files (write_output ["A"; "B"] "out" one_hit idle).2 !! "out" = Some text ∧
    ∀ line, line ∈ PyStr.readlines text ->
      ∃ id1 id2,
        id1 ∈ ["A"; "B"] ∧ id2 ∈ ["A"; "B"] ∧ id1 ≠ id2 ∧
        PyStr.split_char "009" line = [id1; id2; score_text one_hit (id1, id2) +:+ nl] ∧
        (one_hit !! (id1, id2) = None ->
         PyStr.split_char "009" line = [id1; id2; "NA" +:+ nl]).
Proof.
  apply (report_line_fields ["A"; "B"] "out" one_hit idle).
  - vm_compute; reflexivity.
  - intros id Hin.
    repeat (apply elem_of_cons in Hin as [->|Hin]);
      [by split.. | by apply elem_of_nil in Hin].
Defined.

End MoreExamples.
